(** * E-Trans: ledger, session and customs core

    A shallow embedding of the request handlers of the E-Trans backend
    (server/routes/finance.ts, shipments.ts, auth.ts, ai.ts and
    server/middleware/auth.ts) and the properties of its specification.

    Conventions of the embedding.
    - The Prisma store is an explicit value [Db.t] threaded through every
      handler; a table is the list of its rows, [findFirst]/[findUnique] is
      [find] on it, [update({where: {id}})] rewrites the rows of that id.
    - A handler is a function from its request (caller identity, route
      parameter, body), the clock reading and the store to an HTTP response
      and the new store.
    - Instants are milliseconds since the epoch ([Date.now()]), in [Z].
    - Ledger amounts are whole currency units (GNF), in [Z].
    - The numbers of the customs calculator are IEEE-754 doubles, modelled
      with [SpecFloat] at precision 53. *)

From Stdlib Require Import ZArith List String Ascii Bool Lia.
From Stdlib Require Import Floats.SpecFloat.
Import ListNotations.
Open Scope string_scope.
Open Scope list_scope.
Open Scope Z_scope.

(* ================================================================== *)
(** * Part I: the program                                              *)
(* ================================================================== *)

(** ** Small helpers on options and strings *)

Definition orElse {A : Type} (o : option A) (d : A) : A :=
  match o with Some x => x | None => d end.

Definition optZ_eqb (a b : option Z) : bool :=
  match a, b with
  | None, None => true
  | Some x, Some y => x =? y
  | _, _ => false
  end.

Definition optString_eqb (a b : option string) : bool :=
  match a, b with
  | None, None => true
  | Some x, Some y => String.eqb x y
  | _, _ => false
  end.

(** [String.prototype.toLowerCase] on the ASCII letters. *)
Definition lowerAscii (c : ascii) : ascii :=
  let n := nat_of_ascii c in
  if (Nat.leb 65 n && Nat.leb n 90)%bool then ascii_of_nat (n + 32) else c.

Fixpoint toLowerCase (s : string) : string :=
  match s with
  | EmptyString => EmptyString
  | String c rest => String (lowerAscii c) (toLowerCase rest)
  end.

(** ** jsonwebtoken: signed credentials

    A credential is what the client holds in a cookie. [Signed] records the
    secret it was signed with, its claims and the two numeric dates [iat]
    and [exp] (seconds); [Malformed] is any string that is not a JWT. *)
Module Jwt.

Record Payload := mkPayload {
  userId : string;
  role : option string;
  companyId : option string;
  type : option string
}.

Inductive Credential :=
| Malformed (raw : string)
| Signed (key : string) (claims : Payload) (iat exp : Z).

Inductive VerifyError := TokenExpiredError | JsonWebTokenError.

Definition payload_eqb (p q : Payload) : bool :=
  String.eqb (userId p) (userId q)
  && optString_eqb (role p) (role q)
  && optString_eqb (companyId p) (companyId q)
  && optString_eqb (type p) (type q).

(** Equality of the token strings ([where: { token: refreshToken }]). *)
Definition credential_eqb (a b : Credential) : bool :=
  match a, b with
  | Malformed x, Malformed y => String.eqb x y
  | Signed k p i e, Signed k' p' i' e' =>
      String.eqb k k' && payload_eqb p p' && (i =? i') && (e =? e')
  | _, _ => false
  end.

(** [Math.floor(Date.now() / 1000)] *)
Definition seconds (now : Z) : Z := now / 1000.

(** [jwt.sign(claims, secret, { expiresIn })], [expiresIn] in seconds. *)
Definition sign (claims : Payload) (secret : string) (expiresIn now : Z)
  : Credential :=
  Signed secret claims (seconds now) (seconds now + expiresIn).

(** [jwt.verify(token, secret)]: signature first, then expiry
    ([clockTimestamp >= payload.exp] is expired). *)
Definition verify (token : Credential) (secret : string) (now : Z)
  : VerifyError + Payload :=
  match token with
  | Malformed _ => inl JsonWebTokenError
  | Signed key claims _ exp =>
      if negb (String.eqb key secret) then inl JsonWebTokenError
      else if exp <=? seconds now then inl TokenExpiredError
      else inr claims
  end.

End Jwt.

(** ** HTTP responses

    [res.status(s).json({ success, message, code, requiresVerification,
    errors, data })] together with the cookies set on the response. The two
    template-string messages keep the interpolated number. *)
Module Http.

Inductive Message :=
| Text (s : string)
| SoldeInsuffisant (balance : Z)
    (* `Solde insuffisant (${balance.toLocaleString()} GNF disponible)` *)
| CompteVerrouille (minutesLeft : Z).
    (* `Compte verrouillé. Réessayez dans ${minutesLeft} minute(s)` *)

Record Response (A : Type) := mkResponse {
  status : Z;
  success : bool;
  message : option Message;
  code : option string;
  requiresVerification : bool;
  errors : list string;
  cookies : list (string * Jwt.Credential);
  data : option A
}.

Arguments mkResponse {A}.
Arguments status {A}.
Arguments success {A}.
Arguments message {A}.
Arguments code {A}.
Arguments requiresVerification {A}.
Arguments errors {A}.
Arguments cookies {A}.
Arguments data {A}.

(** [res.status(s).json({ success: false, message })] *)
Definition failure {A} (s : Z) (m : Message) : Response A :=
  mkResponse s false (Some m) None false [] [] None.

(** [res.status(s).json({ success: false, message, code })] *)
Definition failureCode {A} (s : Z) (m : Message) (c : string) : Response A :=
  mkResponse s false (Some m) (Some c) false [] [] None.

(** [res.status(400).json({ success: false, message, errors })] *)
Definition invalid {A} (m : string) (fields : list string) : Response A :=
  mkResponse 400 false (Some (Text m)) None false fields [] None.

(** [res.status(s).json({ success: true, data })] *)
Definition okData {A} (s : Z) (d : A) : Response A :=
  mkResponse s true None None false [] [] (Some d).

(** [res.json({ success: true })] *)
Definition okEmpty {A} : Response A :=
  mkResponse 200 true None None false [] [] None.

(** [res.json({ success: true, message })] *)
Definition okMessage {A} (m : string) : Response A :=
  mkResponse 200 true (Some (Text m)) None false [] [] None.

(** [req.user], attached by the [auth] middleware. *)
Record Identity := mkIdentity {
  id : string;
  email : string;
  name : string;
  role : string;
  companyId : string
}.

(** [roles.includes(req.user.role)] *)
Definition includes (roles : list string) (r : string) : bool :=
  existsb (String.eqb r) roles.

(** [requireRole(...roles)]: [None] stands for [next()]. The routers
    mount [auth] first, so [req.user] is set when this runs. *)
Definition requireRole {A} (roles : list string) (user : Identity)
  : option (Response A) :=
  if negb (includes roles (role user))
  then Some (failure 403 (Text "Accès non autorisé"))
  else None.

Definition requireDirector {A} := @requireRole A ["DIRECTOR"].
Definition requireAccountant {A} := @requireRole A ["DIRECTOR"; "ACCOUNTANT"].
Definition requireAgent {A} := @requireRole A ["DIRECTOR"; "ACCOUNTANT"; "AGENT"].

End Http.

(** ** The store: rows and tables *)
Module Db.

Inductive ExpenseType := PROVISION | DISBURSEMENT.

Inductive ShipmentStatus :=
| DRAFT | PENDING | ARRIVED | DDI_OBTAINED | DECLARATION_FILED
| LIQUIDATION_ISSUED | CUSTOMS_PAID | BAE_ISSUED | TERMINAL_PAID
| DO_RELEASED | EXIT_NOTE_ISSUED | IN_DELIVERY | DELIVERED
| INVOICED | CLOSED | ARCHIVED.

Record Company := mkCompany {
  c_id : string;
  c_name : string
}.

(** A user row with its company joined ([include: { company: true }]). *)
Record User := mkUser {
  u_id : string;
  u_email : string;
  u_password : string;           (* bcrypt hash *)
  u_name : string;
  u_role : string;
  u_company : Company;
  u_emailVerified : bool;
  u_isActive : bool;
  u_verificationCode : option string;
  u_codeExpiresAt : option Z;
  u_failedAttempts : Z;
  u_lockedUntil : option Z;
  u_lastLogin : option Z
}.

Definition u_companyId (u : User) : string := c_id (u_company u).

Record RefreshToken := mkRefreshToken {
  rt_token : Jwt.Credential;
  rt_userId : string;
  rt_expiresAt : Z;
  rt_revokedAt : option Z
}.

Record Shipment := mkShipment {
  s_id : string;
  s_companyId : string;
  s_trackingNumber : string;
  s_clientName : string;
  s_description : string;
  s_blNumber : option string;
  s_status : ShipmentStatus;
  s_eta : option Z;
  s_ata : option Z;
  s_deliveryDate : option Z
}.

Record TimelineEvent := mkTimelineEvent {
  t_shipmentId : string;
  t_action : string;
  t_userId : option string;
  t_userName : option string;
  t_date : Z
}.

Record Expense := mkExpense {
  e_id : string;
  e_shipmentId : string;
  e_type : ExpenseType;
  e_category : string;
  e_description : string;
  e_amount : Z;
  e_quantity : option Z;
  e_unitPrice : option Z;
  e_reference : option string;
  e_supplier : option string;
  e_paid : bool;
  e_paidAt : option Z
}.

(** A call of the e-mail collaborator
    ([sendVerificationEmail(to, code, companyName)]). *)
Record Email := mkEmail {
  m_to : string;
  m_code : string;
  m_companyName : string
}.

Record t := mk {
  users : list User;
  refreshTokens : list RefreshToken;
  shipments : list Shipment;
  timeline : list TimelineEvent;
  expenses : list Expense;
  outbox : list Email
}.

Definition empty : t := mk [] [] [] [] [] [].

Definition with_users (db : t) (us : list User) : t :=
  mk us (refreshTokens db) (shipments db) (timeline db) (expenses db) (outbox db).
Definition with_refreshTokens (db : t) (rs : list RefreshToken) : t :=
  mk (users db) rs (shipments db) (timeline db) (expenses db) (outbox db).
Definition with_shipments (db : t) (ss : list Shipment) : t :=
  mk (users db) (refreshTokens db) ss (timeline db) (expenses db) (outbox db).
Definition with_timeline (db : t) (ts : list TimelineEvent) : t :=
  mk (users db) (refreshTokens db) (shipments db) ts (expenses db) (outbox db).
Definition with_expenses (db : t) (es : list Expense) : t :=
  mk (users db) (refreshTokens db) (shipments db) (timeline db) es (outbox db).
Definition with_outbox (db : t) (ms : list Email) : t :=
  mk (users db) (refreshTokens db) (shipments db) (timeline db) (expenses db) ms.

Definition expenseType_eqb (a b : ExpenseType) : bool :=
  match a, b with
  | PROVISION, PROVISION | DISBURSEMENT, DISBURSEMENT => true
  | _, _ => false
  end.

(** [prisma.shipment.findFirst({ where: { id, companyId } })] *)
Definition findShipment (db : t) (id companyId : string) : option Shipment :=
  find (fun s => String.eqb (s_id s) id && String.eqb (s_companyId s) companyId)
       (shipments db).

(** The relation filter [shipment: { companyId }] on an expense row. *)
Definition shipmentOfCompany (db : t) (shipmentId companyId : string) : bool :=
  existsb (fun s => String.eqb (s_id s) shipmentId
                    && String.eqb (s_companyId s) companyId)
          (shipments db).

(** [prisma.expense.findFirst({ where: { id, shipment: { companyId } } })] *)
Definition findExpense (db : t) (id companyId : string) : option Expense :=
  find (fun e => String.eqb (e_id e) id
                 && shipmentOfCompany db (e_shipmentId e) companyId)
       (expenses db).

(** The relation filter [shipmentId] on an expense row. *)
Definition ofShipment (shipmentId : string) (e : Expense) : bool :=
  String.eqb (e_shipmentId e) shipmentId.

(** [include: { expenses: true }] on a shipment: its expense rows. *)
Definition expensesOf (db : t) (shipmentId : string) : list Expense :=
  filter (ofShipment shipmentId) (expenses db).

(** [prisma.expense.update({ where: { id }, data })] with [data] applied
    by [f]. *)
Definition updateExpenseRows (id : string) (f : Expense -> Expense)
  (rows : list Expense) : list Expense :=
  map (fun e => if String.eqb (e_id e) id then f e else e) rows.

(** [prisma.expense.delete({ where: { id } })] *)
Definition deleteExpenseRows (id : string) (rows : list Expense) : list Expense :=
  filter (fun e => negb (String.eqb (e_id e) id)) rows.

(** [prisma.user.findUnique({ where: { email } })] *)
Definition findUserByEmail (db : t) (email : string) : option User :=
  find (fun u => String.eqb (u_email u) email) (users db).

(** [prisma.user.findUnique({ where: { id } })] *)
Definition findUserById (db : t) (id : string) : option User :=
  find (fun u => String.eqb (u_id u) id) (users db).

(** [prisma.user.update({ where: { id }, data })] *)
Definition updateUserRows (id : string) (f : User -> User)
  (rows : list User) : list User :=
  map (fun u => if String.eqb (u_id u) id then f u else u) rows.

End Db.


(** ** server/routes/finance.ts: the ledger *)
Module Finance.
Import Http Db.

(** The totals of [GET /shipment/:shipmentId]. *)
Record Summary := mkSummary {
  provisions : Z;
  disbursements : Z;
  paid : Z;
  unpaid : Z;
  balance : Z;
  rows : list Expense
}.

(** One turn of the loop of [GET /shipment/:shipmentId]; the accumulator
    is [(provisions, disbursements, paid)]. *)
Definition summaryStep (acc : Z * Z * Z) (e : Expense) : Z * Z * Z :=
  let '(provisions, disbursements, paid) := acc in
  match e_type e with
  | PROVISION => (provisions + e_amount e, disbursements, paid)
  | DISBURSEMENT =>
      (provisions, disbursements + e_amount e,
       if e_paid e then paid + e_amount e else paid)
  end.

(** [GET /api/finance/shipment/:shipmentId] *)
Definition shipmentSummary (caller : Identity) (shipmentId : string) (db : Db.t)
  : Response Summary :=
  match findShipment db shipmentId (companyId caller) with
  | None => failure 404 (Text "Dossier non trouvé")
  | Some shipment =>
      let es := expensesOf db (s_id shipment) in
      let '(provisions, disbursements, paid) :=
        fold_left summaryStep es (0, 0, 0) in
      okData 200 (mkSummary provisions disbursements paid
                            (disbursements - paid) (provisions - paid) es)
  end.

(** The body of [POST /expenses] once it has the shape of
    [createExpenseSchema]; [type] being an [ExpenseType] is the [z.enum]. *)
Record CreateExpenseBody := mkCreateExpenseBody {
  b_shipmentId : string;
  b_type : ExpenseType;
  b_category : string;
  b_description : string;
  b_amount : Z;
  b_quantity : option Z;
  b_unitPrice : option Z;
  b_reference : option string;
  b_supplier : option string
}.

(** The fields [createExpenseSchema.parse] rejects:
    [description: z.string().min(1)], [amount: z.number().positive()]. *)
Definition createExpenseIssues (b : CreateExpenseBody) : list string :=
  (if String.eqb (b_description b) "" then ["description"] else [])
  ++ (if b_amount b <=? 0 then ["amount"] else []).

(** [POST /api/finance/expenses]. [newId] is the id the store gives the row;
    [defaultPaid] is the column default of [paid], which the handler leaves
    to the schema. *)
Definition createExpense (defaultPaid : bool) (caller : Identity)
  (body : CreateExpenseBody) (newId : string) (db : Db.t)
  : Response Expense * Db.t :=
  match requireAccountant caller with
  | Some denied => (denied, db)
  | None =>
      match createExpenseIssues body with
      | _ :: _ as issues => (invalid "Données invalides" issues, db)
      | [] =>
          match findShipment db (b_shipmentId body) (companyId caller) with
          | None => (failure 404 (Text "Dossier non trouvé"), db)
          | Some shipment =>
              let expense :=
                mkExpense newId (b_shipmentId body) (b_type body)
                          (b_category body) (b_description body) (b_amount body)
                          (b_quantity body) (b_unitPrice body)
                          (b_reference body) (b_supplier body)
                          defaultPaid None in
              (okData 201 expense, with_expenses db (expenses db ++ [expense]))
          end
      end
  end.

(** The body of [PATCH /expenses/:id]: the scalar columns of an expense
    row, each present or absent; a nullable column may be set to [null]. *)
Record ExpensePatch := mkExpensePatch {
  p_type : option ExpenseType;
  p_category : option string;
  p_description : option string;
  p_amount : option Z;
  p_quantity : option (option Z);
  p_unitPrice : option (option Z);
  p_reference : option (option string);
  p_supplier : option (option string);
  p_paid : option bool;
  p_paidAt : option (option Z)
}.

Definition emptyPatch : ExpensePatch :=
  mkExpensePatch None None None None None None None None None None.

(** [updateData.paidAt = v] *)
Definition set_paidAt (p : ExpensePatch) (v : Z) : ExpensePatch :=
  mkExpensePatch (p_type p) (p_category p) (p_description p) (p_amount p)
                 (p_quantity p) (p_unitPrice p) (p_reference p) (p_supplier p)
                 (p_paid p) (Some (Some v)).

(** What [prisma.expense.update] does to the row with [data]. *)
Definition applyPatch (data : ExpensePatch) (e : Expense) : Expense :=
  mkExpense (e_id e) (e_shipmentId e)
            (orElse (p_type data) (e_type e))
            (orElse (p_category data) (e_category e))
            (orElse (p_description data) (e_description e))
            (orElse (p_amount data) (e_amount e))
            (orElse (p_quantity data) (e_quantity e))
            (orElse (p_unitPrice data) (e_unitPrice e))
            (orElse (p_reference data) (e_reference e))
            (orElse (p_supplier data) (e_supplier e))
            (orElse (p_paid data) (e_paid e))
            (orElse (p_paidAt data) (e_paidAt e)).

(** [req.body.paid === true] *)
Definition paidIsTrue (body : ExpensePatch) : bool :=
  match p_paid body with Some true => true | _ => false end.

(** [PATCH /api/finance/expenses/:id] *)
Definition updateExpense (caller : Identity) (id : string)
  (body : ExpensePatch) (now : Z) (db : Db.t) : Response Expense * Db.t :=
  match requireAccountant caller with
  | Some denied => (denied, db)
  | None =>
      match findExpense db id (companyId caller) with
      | None => (failure 404 (Text "Dépense non trouvée"), db)
      | Some expense =>
          let updateData := body in
          (* If marking as paid, set paidAt *)
          let updateData :=
            if paidIsTrue body && negb (e_paid expense)
            then set_paidAt updateData now else updateData in
          let updated := applyPatch updateData expense in
          (okData 200 updated,
           with_expenses db
             (updateExpenseRows (e_id expense) (applyPatch updateData)
                                (expenses db)))
      end
  end.

(** One turn of the balance loop of [POST /expenses/:id/pay]; the
    accumulator is [(provisions, paidDisbursements)]. *)
Definition balanceStep (acc : Z * Z) (e : Expense) : Z * Z :=
  let '(provisions, paidDisbursements) := acc in
  match e_type e with
  | PROVISION => (provisions + e_amount e, paidDisbursements)
  | DISBURSEMENT =>
      if e_paid e then (provisions, paidDisbursements + e_amount e)
      else (provisions, paidDisbursements)
  end.

(** [const balance = provisions - paidDisbursements] after the loop over
    [expense.shipment.expenses]. *)
Definition currentBalance (es : list Expense) : Z :=
  let '(provisions, paidDisbursements) := fold_left balanceStep es (0, 0) in
  provisions - paidDisbursements.

(** [data: { paid: true, paidAt: new Date() }] *)
Definition markPaid (now : Z) (e : Expense) : Expense :=
  mkExpense (e_id e) (e_shipmentId e) (e_type e) (e_category e)
            (e_description e) (e_amount e) (e_quantity e) (e_unitPrice e)
            (e_reference e) (e_supplier e) true (Some now).

(** [POST /api/finance/expenses/:id/pay] *)
Definition payExpense (caller : Identity) (id : string) (now : Z) (db : Db.t)
  : Response Expense * Db.t :=
  match requireAccountant caller with
  | Some denied => (denied, db)
  | None =>
      match findExpense db id (companyId caller) with
      | None => (failure 404 (Text "Dépense non trouvée"), db)
      | Some expense =>
          if e_paid expense
          then (failure 400 (Text "Dépense déjà payée"), db)
          else
            let markedPaid :=
              (okData 200 (markPaid now expense),
               with_expenses db
                 (updateExpenseRows (e_id expense) (markPaid now) (expenses db))) in
            (* Check balance for disbursements *)
            match e_type expense with
            | DISBURSEMENT =>
                let balance :=
                  currentBalance (expensesOf db (e_shipmentId expense)) in
                if balance <? e_amount expense
                then (failure 400 (SoldeInsuffisant balance), db)
                else markedPaid
            | PROVISION => markedPaid
            end
      end
  end.

(** [DELETE /api/finance/expenses/:id] *)
Definition deleteExpense (caller : Identity) (id : string) (db : Db.t)
  : Response Expense * Db.t :=
  match requireAccountant caller with
  | Some denied => (denied, db)
  | None =>
      match findExpense db id (companyId caller) with
      | None => (failure 404 (Text "Dépense non trouvée"), db)
      | Some expense =>
          if e_paid expense
          then (failure 400 (Text "Impossible de supprimer une dépense payée"), db)
          else (okEmpty, with_expenses db (deleteExpenseRows (e_id expense) (expenses db)))
      end
  end.

(** The ledger operations of the specification, as requests. *)
Inductive Op :=
| CreateExpense (body : CreateExpenseBody) (newId : string)
| UpdateExpense (id : string) (body : ExpensePatch)
| PayExpense (id : string)
| DeleteExpense (id : string).

(** One request by [caller] at instant [now]. *)
Definition step (defaultPaid : bool) (caller : Identity) (now : Z)
  (db : Db.t) (op : Op) : Db.t :=
  match op with
  | CreateExpense body newId => snd (createExpense defaultPaid caller body newId db)
  | UpdateExpense id body => snd (updateExpense caller id body now db)
  | PayExpense id => snd (payExpense caller id now db)
  | DeleteExpense id => snd (deleteExpense caller id db)
  end.

(** A sequence of requests, in order. *)
Definition run (defaultPaid : bool) (caller : Identity) (now : Z)
  (db : Db.t) (ops : list Op) : Db.t :=
  fold_left (step defaultPaid caller now) ops db.

(** The balance the ledger reports for a shipment: the [balance] field
    computed by [GET /shipment/:shipmentId]. *)
Definition reportedBalance (caller : Identity) (shipmentId : string) (db : Db.t)
  : option Z :=
  option_map balance (data (shipmentSummary caller shipmentId db)).

(** The balance as the specification words it: the sum of the amounts of
    the PROVISION expenses minus the sum of the amounts of the paid
    DISBURSEMENT expenses. *)
Definition sumAmounts (es : list Expense) : Z :=
  fold_right (fun e acc => e_amount e + acc) 0 es.

Definition isProvision (e : Expense) : bool :=
  expenseType_eqb (e_type e) PROVISION.

Definition isPaidDisbursement (e : Expense) : bool :=
  expenseType_eqb (e_type e) DISBURSEMENT && e_paid e.

Definition specBalance (es : list Expense) : Z :=
  sumAmounts (filter isProvision es) - sumAmounts (filter isPaidDisbursement es).

(** What one expense adds to that balance. *)
Definition contribution (e : Expense) : Z :=
  (if isProvision e then e_amount e else 0)
  - (if isPaidDisbursement e then e_amount e else 0).


(** The expense rows of a company
    ([where: { shipment: { companyId } }]). *)
Definition companyExpenses (db : Db.t) (companyId : string) : list Expense :=
  filter (fun e => shipmentOfCompany db (e_shipmentId e) companyId) (expenses db).

(** [byCategory[e.category] = (byCategory[e.category] || 0) + e.amount] on
    the object [byCategory]: its keys in insertion order. The categories of
    stored rows are names of the ExpenseCategory enum. *)
Fixpoint addToCategory (byCategory : list (string * Z)) (category : string)
  (amount : Z) : list (string * Z) :=
  match byCategory with
  | [] => [(category, amount)]
  | (k, v) :: rest =>
      if String.eqb k category then (k, v + amount) :: rest
      else (k, v) :: addToCategory rest category amount
  end.

(** The entry of [category] in the serialised [byCategory] object. *)
Fixpoint categoryTotal (byCategory : list (string * Z)) (category : string)
  : option Z :=
  match byCategory with
  | [] => None
  | (k, v) :: rest =>
      if String.eqb k category then Some v else categoryTotal rest category
  end.

(** The totals of [GET /summary]. *)
Record CompanySummary := mkCompanySummary {
  totalProvisions : Z;
  totalDisbursements : Z;
  paidDisbursements : Z;
  unpaidDisbursements : Z;
  companyBalance : Z;
  byCategory : list (string * Z)
}.

(** One turn of the loop of [GET /summary]; the accumulator is
    [(totalProvisions, totalDisbursements, paidDisbursements, byCategory)]. *)
Definition companyStep (acc : Z * Z * Z * list (string * Z)) (e : Expense)
  : Z * Z * Z * list (string * Z) :=
  let '(totalProvisions, totalDisbursements, paidDisbursements, byCategory) := acc in
  match e_type e with
  | PROVISION =>
      (totalProvisions + e_amount e, totalDisbursements, paidDisbursements,
       byCategory)
  | DISBURSEMENT =>
      (totalProvisions, totalDisbursements + e_amount e,
       (if e_paid e then paidDisbursements + e_amount e else paidDisbursements),
       addToCategory byCategory (e_category e) (e_amount e))
  end.

(** [GET /api/finance/summary] *)
Definition companySummary (caller : Identity) (db : Db.t)
  : Response CompanySummary :=
  let expenses := companyExpenses db (companyId caller) in
  let '(totalProvisions, totalDisbursements, paidDisbursements, byCategory) :=
    fold_left companyStep expenses (0, 0, 0, []) in
  okData 200
    (mkCompanySummary totalProvisions totalDisbursements paidDisbursements
                      (totalDisbursements - paidDisbursements)
                      (totalProvisions - paidDisbursements) byCategory).

(** The sum of the values of an object of numbers. *)
Definition sumValues (byCategory : list (string * Z)) : Z :=
  fold_right (fun kv acc => snd kv + acc) 0 byCategory.

(** A row is a disbursement of the category. *)
Definition isDisbursementOf (category : string) (e : Expense) : bool :=
  expenseType_eqb (e_type e) DISBURSEMENT && String.eqb (e_category e) category.

End Finance.


(** ** server/routes/shipments.ts: the status history *)
Module Shipments.
Import Http Db.

(** The [status] key of a request body: absent, one of the names of the
    [ShipmentStatus] enum, or anything else (which the store refuses). *)
Inductive StatusField :=
| StatusAbsent
| StatusValue (s : ShipmentStatus)
| StatusInvalid (raw : string).

(** The body of [PATCH /:id]. The three dates are the instants
    [new Date(req.body.eta)] and so on; absent or falsy is [None]. *)
Record ShipmentPatch := mkShipmentPatch {
  sp_clientName : option string;
  sp_description : option string;
  sp_blNumber : option (option string);
  sp_status : StatusField;
  sp_eta : option Z;
  sp_ata : option Z;
  sp_deliveryDate : option Z
}.

Definition statusName (s : ShipmentStatus) : string :=
  match s with
  | DRAFT => "DRAFT" | PENDING => "PENDING" | ARRIVED => "ARRIVED"
  | DDI_OBTAINED => "DDI_OBTAINED" | DECLARATION_FILED => "DECLARATION_FILED"
  | LIQUIDATION_ISSUED => "LIQUIDATION_ISSUED" | CUSTOMS_PAID => "CUSTOMS_PAID"
  | BAE_ISSUED => "BAE_ISSUED" | TERMINAL_PAID => "TERMINAL_PAID"
  | DO_RELEASED => "DO_RELEASED" | EXIT_NOTE_ISSUED => "EXIT_NOTE_ISSUED"
  | IN_DELIVERY => "IN_DELIVERY" | DELIVERED => "DELIVERED"
  | INVOICED => "INVOICED" | CLOSED => "CLOSED" | ARCHIVED => "ARCHIVED"
  end.

Definition status_eqb (a b : ShipmentStatus) : bool :=
  String.eqb (statusName a) (statusName b).

(** What [prisma.shipment.update] does to the row with
    [{ ...req.body, eta, ata, deliveryDate }]; an [undefined] date leaves
    the column as it is. *)
Definition applyShipmentPatch (body : ShipmentPatch) (s : Shipment) : Shipment :=
  mkShipment (s_id s) (s_companyId s) (s_trackingNumber s)
             (orElse (sp_clientName body) (s_clientName s))
             (orElse (sp_description body) (s_description s))
             (orElse (sp_blNumber body) (s_blNumber s))
             (match sp_status body with
              | StatusValue st => st
              | _ => s_status s
              end)
             (match sp_eta body with Some d => Some d | None => s_eta s end)
             (match sp_ata body with Some d => Some d | None => s_ata s end)
             (match sp_deliveryDate body with
              | Some d => Some d
              | None => s_deliveryDate s
              end).

(** [prisma.shipment.update({ where: { id }, data })] *)
Definition updateShipmentRows (id : string) (f : Shipment -> Shipment)
  (rows : list Shipment) : list Shipment :=
  map (fun s => if String.eqb (s_id s) id then f s else s) rows.

(** [req.body.status && req.body.status !== shipment.status] *)
Definition statusChanged (body : ShipmentPatch) (shipment : Shipment)
  : option ShipmentStatus :=
  match sp_status body with
  | StatusValue st => if status_eqb st (s_status shipment) then None else Some st
  | _ => None
  end.

(** The row of [prisma.timelineEvent.create] for a status change; [date]
    is the instant of the insertion. *)
Definition statusEvent (shipment : Shipment) (st : ShipmentStatus)
  (caller : Identity) (now : Z) : TimelineEvent :=
  mkTimelineEvent (s_id shipment)
                  (String.append "Statut changé: " (statusName st))
                  (Some (id caller)) (Some (name caller)) now.

(** The storage calls of [PATCH /:id], in the order the handler awaits
    them. Each is a round trip of its own and may throw. *)
Inductive StorageCall := FindShipment | UpdateShipment | CreateTimelineEvent.

Definition call_eqb (a b : StorageCall) : bool :=
  match a, b with
  | FindShipment, FindShipment
  | UpdateShipment, UpdateShipment
  | CreateTimelineEvent, CreateTimelineEvent => true
  | _, _ => false
  end.

(** [throws fault c]: the storage call [c] is the one that fails. *)
Definition throws (fault : option StorageCall) (c : StorageCall) : bool :=
  match fault with Some f => call_eqb f c | None => false end.

(** The [catch] of [PATCH /:id]. *)
Definition updateError : Response Shipment :=
  failure 500 (Text "Erreur de mise à jour").

(** [PATCH /api/shipments/:id]. [fault] names the storage call that throws
    in this run, if any; what was written before it stays written. *)
Definition patchShipment (fault : option StorageCall) (caller : Identity)
  (id : string) (body : ShipmentPatch) (now : Z) (db : Db.t)
  : Response Shipment * Db.t :=
  match requireAgent caller with
  | Some denied => (denied, db)
  | None =>
      if throws fault FindShipment then (updateError, db) else
      match findShipment db id (companyId caller) with
      | None => (failure 404 (Text "Dossier non trouvé"), db)
      | Some shipment =>
          match sp_status body with
          | StatusInvalid _ => (updateError, db)
          | _ =>
              if throws fault UpdateShipment then (updateError, db) else
              let updated := applyShipmentPatch body shipment in
              let db1 :=
                with_shipments db
                  (updateShipmentRows id (applyShipmentPatch body) (shipments db)) in
              (* Add timeline event for status change *)
              match statusChanged body shipment with
              | Some st =>
                  if throws fault CreateTimelineEvent then (updateError, db1) else
                  (okData 200 updated,
                   with_timeline db1
                     (timeline db1 ++ [statusEvent shipment st caller now]))
              | None => (okData 200 updated, db1)
              end
          end
      end
  end.

(** The timeline of one shipment ([include: { timeline: true }]). *)
Definition timelineOf (db : Db.t) (shipmentId : string) : list TimelineEvent :=
  filter (fun ev => String.eqb (t_shipmentId ev) shipmentId) (timeline db).


(** [data: { status: 'ARCHIVED' }] *)
Definition setArchived (s : Shipment) : Shipment :=
  mkShipment (s_id s) (s_companyId s) (s_trackingNumber s) (s_clientName s)
             (s_description s) (s_blNumber s) ARCHIVED
             (s_eta s) (s_ata s) (s_deliveryDate s).

(** [DELETE /api/shipments/:id] *)
Definition archiveShipment (caller : Identity) (id : string) (db : Db.t)
  : Response Shipment * Db.t :=
  match requireAgent caller with
  | Some denied => (denied, db)
  | None =>
      match findShipment db id (companyId caller) with
      | None => (failure 404 (Text "Dossier non trouvé"), db)
      | Some shipment =>
          (* Archive instead of delete *)
          (okMessage "Dossier archivé",
           with_shipments db (updateShipmentRows id setArchived (shipments db)))
      end
  end.

(** [prisma.shipment.count({ where: { companyId, status } })] *)
Definition countStatus (db : Db.t) (companyId : string)
  (statuses : list ShipmentStatus) : Z :=
  Z.of_nat
    (List.length
       (filter (fun s => String.eqb (s_companyId s) companyId
                         && existsb (status_eqb (s_status s)) statuses)
               (shipments db))).

(** [prisma.shipment.count({ where: { companyId } })] *)
Definition countShipments (db : Db.t) (companyId : string) : Z :=
  Z.of_nat
    (List.length
       (filter (fun s => String.eqb (s_companyId s) companyId) (shipments db))).

(** The statuses [GET /stats] counts as in progress. *)
Definition inProgressStatuses : list ShipmentStatus :=
  [ARRIVED; DDI_OBTAINED; DECLARATION_FILED; LIQUIDATION_ISSUED;
   CUSTOMS_PAID; BAE_ISSUED; TERMINAL_PAID; DO_RELEASED;
   EXIT_NOTE_ISSUED; IN_DELIVERY].

(** One group of [prisma.expense.groupBy({ by: ['type', 'paid'],
    _sum: { amount: true } })]. *)
Record ExpenseGroup := mkExpenseGroup {
  g_type : ExpenseType;
  g_paid : bool;
  g_sum : Z
}.

(** The rows of one group. *)
Definition inGroup (ty : ExpenseType) (paid : bool) (e : Expense) : bool :=
  expenseType_eqb (e_type e) ty && Bool.eqb (e_paid e) paid.

(** The groups of a set of rows: one for each pair of type and paid flag
    that some row carries, with the sum of the amounts of its rows. *)
Definition groupByTypePaid (rows : list Expense) : list ExpenseGroup :=
  flat_map
    (fun key : ExpenseType * bool =>
       let '(ty, paid) := key in
       match filter (inGroup ty paid) rows with
       | [] => []
       | members =>
           [mkExpenseGroup ty paid
              (fold_right (fun e acc => e_amount e + acc) 0 members)]
       end)
    [(PROVISION, false); (PROVISION, true);
     (DISBURSEMENT, false); (DISBURSEMENT, true)].

(** The sum of the amounts of the rows of one group. *)
Definition groupSum (ty : ExpenseType) (paid : bool) (rows : list Expense) : Z :=
  Finance.sumAmounts (filter (inGroup ty paid) rows).

(** One turn of the finance loop of [GET /stats]; the accumulator is
    [(totalProvisions, totalDisbursements, paidDisbursements)]. *)
Definition statsStep (acc : Z * Z * Z) (g : ExpenseGroup) : Z * Z * Z :=
  let '(totalProvisions, totalDisbursements, paidDisbursements) := acc in
  let amount := g_sum g in
  match g_type g with
  | PROVISION => (totalProvisions + amount, totalDisbursements, paidDisbursements)
  | DISBURSEMENT =>
      (totalProvisions, totalDisbursements + amount,
       if g_paid g then paidDisbursements + amount else paidDisbursements)
  end.

(** The [shipments] and [finance] objects of the dashboard. *)
Record Stats := mkStats {
  st_total : Z;
  st_pending : Z;
  st_inProgress : Z;
  st_delivered : Z;
  st_thisMonth : Z;
  st_totalProvisions : Z;
  st_totalDisbursements : Z;
  st_balance : Z;
  st_unpaid : Z;
  st_recentShipments : list Shipment
}.

(** [GET /api/shipments/stats]. [newestFirst] is the order
    [orderBy: { createdAt: 'desc' }] of the shipment rows. The constant
    [containers] and [alerts] objects of the response are left out. *)
Definition stats (newestFirst : list Shipment -> list Shipment)
  (caller : Identity) (db : Db.t) : Response Stats :=
  let companyId := companyId caller in
  let total := countShipments db companyId in
  let pending := countStatus db companyId [PENDING] in
  let delivered := countStatus db companyId [DELIVERED] in
  let expenses :=
    groupByTypePaid
      (filter (fun e => shipmentOfCompany db (e_shipmentId e) companyId)
              (Db.expenses db)) in
  let inProgress := countStatus db companyId inProgressStatuses in
  (* Calculate finance *)
  let '(totalProvisions, totalDisbursements, paidDisbursements) :=
    fold_left statsStep expenses (0, 0, 0) in
  let recentShipments :=
    firstn 5 (newestFirst
                (filter (fun s => String.eqb (s_companyId s) companyId)
                        (shipments db))) in
  okData 200
    (mkStats total pending inProgress delivered total
             totalProvisions totalDisbursements
             (totalProvisions - paidDisbursements)
             (totalDisbursements - paidDisbursements)
             recentShipments).

End Shipments.


(** ** server/routes/auth.ts and server/middleware/auth.ts: sessions *)
Module Auth.
Import Http Db.

Section Routes.

(** [bcrypt.compare(password, hash)] *)
Variable compare : string -> string -> bool.

(** [z.string().email()] *)
Variable isEmail : string -> bool.

(** [env.JWT_SECRET] and [env.REFRESH_TOKEN_SECRET] *)
Variable JWT_SECRET : string.
Variable REFRESH_TOKEN_SECRET : string.

Definition minutes15 : Z := 15 * 60 * 1000.
Definition days7 : Z := 7 * 24 * 60 * 60 * 1000.

(** [generateTokens(userId, role, companyId)]: the access credential lives
    15 minutes, the refresh credential 7 days. *)
Definition generateTokens (userId role companyId : string) (now : Z)
  : Jwt.Credential * Jwt.Credential :=
  let accessToken :=
    Jwt.sign (Jwt.mkPayload userId (Some role) (Some companyId) None)
             JWT_SECRET (15 * 60) now in
  let refreshToken :=
    Jwt.sign (Jwt.mkPayload userId None None (Some "refresh"))
             REFRESH_TOKEN_SECRET (7 * 24 * 60 * 60) now in
  (accessToken, refreshToken).

(** The [user] object of the login response. *)
Record UserView := mkUserView {
  v_id : string;
  v_email : string;
  v_name : string;
  v_role : string;
  v_company : Company
}.

Definition viewOf (u : User) : UserView :=
  mkUserView (u_id u) (u_email u) (u_name u) (u_role u) (u_company u).

(** [data: { verificationCode: code, codeExpiresAt }] *)
Definition setCode (code : string) (codeExpiresAt : Z) (u : User) : User :=
  mkUser (u_id u) (u_email u) (u_password u) (u_name u) (u_role u)
         (u_company u) (u_emailVerified u) (u_isActive u)
         (Some code) (Some codeExpiresAt)
         (u_failedAttempts u) (u_lockedUntil u) (u_lastLogin u).

(** [data: { failedAttempts, lockedUntil }] *)
Definition setFailure (failedAttempts : Z) (lockedUntil : option Z) (u : User)
  : User :=
  mkUser (u_id u) (u_email u) (u_password u) (u_name u) (u_role u)
         (u_company u) (u_emailVerified u) (u_isActive u)
         (u_verificationCode u) (u_codeExpiresAt u)
         failedAttempts lockedUntil (u_lastLogin u).

(** [data: { failedAttempts: 0, lockedUntil: null, lastLogin: new Date() }] *)
Definition setLoggedIn (now : Z) (u : User) : User :=
  mkUser (u_id u) (u_email u) (u_password u) (u_name u) (u_role u)
         (u_company u) (u_emailVerified u) (u_isActive u)
         (u_verificationCode u) (u_codeExpiresAt u)
         0 None (Some now).

(** [Math.ceil(ms / 60000)] *)
Definition ceilMinutes (ms : Z) : Z := - ((- ms) / 60000).

(** [user.lockedUntil && user.lockedUntil > new Date()]: the instant the
    lock ends when the account is locked at [now]. *)
Definition lockedAt (u : User) (now : Z) : option Z :=
  match u_lockedUntil u with
  | Some lockedUntil => if now <? lockedUntil then Some lockedUntil else None
  | None => None
  end.

(** The fields [loginSchema.parse] rejects. *)
Definition loginIssues (email password : string) : list string :=
  (if isEmail email then [] else ["email"])
  ++ (if String.eqb password "" then ["password"] else []).

(** The response of the e-mail check of [POST /login]. *)
Definition needsVerification : Response UserView :=
  mkResponse 403 false
             (Some (Text "Email non vérifié. Un nouveau code a été envoyé."))
             (Some "EMAIL_NOT_VERIFIED") true [] [] None.

(** The generic message of [POST /login]. *)
Definition incorrectCredentials : Message :=
  Text "Email ou mot de passe incorrect".

(** [POST /api/auth/login]. [code] is the draw of
    [generateVerificationCode()] should the handler need one. *)
Definition login (email password : string) (code : string) (now : Z)
  (db : Db.t) : Response UserView * Db.t :=
  match loginIssues email password with
  | _ :: _ as issues => (invalid "Données invalides" issues, db)
  | [] =>
  match findUserByEmail db (toLowerCase email) with
  | None => (failure 401 incorrectCredentials, db)
  | Some user =>
  (* Check if locked *)
  match lockedAt user now with
  | Some lockedUntil =>
      let minutesLeft := ceilMinutes (lockedUntil - now) in
      (failure 423 (CompteVerrouille minutesLeft), db)
  | None =>
  (* Check email verified *)
  if negb (u_emailVerified user) then
    let codeExpiresAt := now + minutes15 in
    let db1 :=
      with_users db
        (updateUserRows (u_id user) (setCode code codeExpiresAt) (users db)) in
    let db2 :=
      with_outbox db1
        (outbox db1 ++ [mkEmail email code (c_name (u_company user))]) in
    (needsVerification, db2)
  (* Check active *)
  else if negb (u_isActive user) then
    (failure 401 (Text "Compte désactivé"), db)
  (* Verify password *)
  else if negb (compare password (u_password user)) then
    let newFailedAttempts := u_failedAttempts user + 1 in
    let shouldLock := 5 <=? newFailedAttempts in
    let db1 :=
      with_users db
        (updateUserRows (u_id user)
           (setFailure newFailedAttempts
              (if shouldLock then Some (now + minutes15) else None))
           (users db)) in
    (failure 401
       (if shouldLock
        then Text "Trop de tentatives. Compte verrouillé pour 15 minutes."
        else incorrectCredentials),
     db1)
  else
    (* Generate tokens *)
    let tokens := generateTokens (u_id user) (u_role user) (u_companyId user) now in
    (* Save refresh token and reset failed attempts: one $transaction *)
    let db1 :=
      with_refreshTokens db
        (refreshTokens db
         ++ [mkRefreshToken (snd tokens) (u_id user) (now + days7) None]) in
    let db2 :=
      with_users db1 (updateUserRows (u_id user) (setLoggedIn now) (users db1)) in
    (mkResponse 200 true None None false []
                [("accessToken", fst tokens); ("refreshToken", snd tokens)]
                (Some (viewOf user)),
     db2)
  end
  end
  end.

(** The row [POST /refresh] looks for: this token, of this user, not
    revoked, not expired. *)
Definition isLiveTokenOf (token : Jwt.Credential) (userId : string) (now : Z)
  (r : RefreshToken) : bool :=
  Jwt.credential_eqb (rt_token r) token
  && String.eqb (rt_userId r) userId
  && match rt_revokedAt r with None => true | Some _ => false end
  && (now <? rt_expiresAt r).

(** [POST /api/auth/refresh]; [cookie] is [req.cookies?.refreshToken]. *)
Definition refresh (cookie : option Jwt.Credential) (now : Z) (db : Db.t)
  : Response unit * Db.t :=
  match cookie with
  | None => (failure 401 (Text "Token de rafraîchissement manquant"), db)
  | Some refreshToken =>
      (* Verify token *)
      match Jwt.verify refreshToken REFRESH_TOKEN_SECRET now with
      | inl _ => (failure 401 (Text "Token invalide"), db)
      | inr decoded =>
          (* Check in database *)
          match find (isLiveTokenOf refreshToken (Jwt.userId decoded) now)
                     (refreshTokens db) with
          | None => (failure 401 (Text "Token invalide ou expiré"), db)
          | Some storedToken =>
              match findUserById db (rt_userId storedToken) with
              | None => (failure 401 (Text "Token invalide"), db)
              | Some user =>
                  (* Generate new access token *)
                  let accessToken :=
                    Jwt.sign (Jwt.mkPayload (u_id user) (Some (u_role user))
                                            (Some (u_companyId user)) None)
                             JWT_SECRET (15 * 60) now in
                  (mkResponse 200 true None None false []
                              [("accessToken", accessToken)] None,
                   db)
              end
          end
      end
  end.

(** The [auth] middleware: the identity it attaches to the request, or the
    response it ends the request with. [cookie] is
    [req.cookies?.accessToken], [bearer] the token of the Authorization
    header. *)
Definition auth (cookie bearer : option Jwt.Credential) (now : Z) (db : Db.t)
  : Response unit + Identity :=
  let token := match cookie with Some c => Some c | None => bearer end in
  match token with
  | None => inl (failureCode 401 (Text "Authentification requise") "NO_TOKEN")
  | Some token =>
      match Jwt.verify token JWT_SECRET now with
      | inl Jwt.TokenExpiredError =>
          inl (failureCode 401 (Text "Token expiré") "TOKEN_EXPIRED")
      | inl Jwt.JsonWebTokenError =>
          inl (failureCode 401 (Text "Token invalide") "INVALID_TOKEN")
      | inr decoded =>
          match findUserById db (Jwt.userId decoded) with
          | None =>
              inl (failureCode 401 (Text "Utilisateur non trouvé") "USER_NOT_FOUND")
          | Some user =>
              if negb (u_isActive user) then
                inl (failureCode 401 (Text "Compte désactivé") "ACCOUNT_DISABLED")
              else if negb (u_emailVerified user) then
                inl (failureCode 401 (Text "Email non vérifié") "EMAIL_NOT_VERIFIED")
              else
                inr (mkIdentity (u_id user) (u_email user) (u_name user)
                                (u_role user) (u_companyId user))
          end
      end
  end.

(** [data: { revokedAt: new Date() }] on the rows
    [where: { userId, revokedAt: null }]. *)
Definition revoke (userId : string) (now : Z) (r : RefreshToken) : RefreshToken :=
  match rt_revokedAt r with
  | None =>
      if String.eqb (rt_userId r) userId
      then mkRefreshToken (rt_token r) (rt_userId r) (rt_expiresAt r) (Some now)
      else r
  | Some _ => r
  end.

(** [POST /api/auth/logout], behind [auth]. [clearAuthCookies] removes
    the two cookies; the response sets none. *)
Definition logout (caller : Identity) (now : Z) (db : Db.t)
  : Response unit * Db.t :=
  (* Revoke all refresh tokens *)
  (okEmpty,
   with_refreshTokens db (map (revoke (id caller) now) (refreshTokens db))).

(** The one response of [POST /resend-code]. *)
Definition resendResponse : Response unit :=
  okMessage "Si ce compte existe, un code a été envoyé".

(** [POST /api/auth/resend-code]. [code] is the draw of
    [generateVerificationCode()]. *)
Definition resendCode (email : string) (code : string) (now : Z) (db : Db.t)
  : Response unit * Db.t :=
  if negb (isEmail email) then (resendResponse, db) else
  match findUserByEmail db (toLowerCase email) with
  | Some user =>
      if negb (u_emailVerified user) then
        let codeExpiresAt := now + minutes15 in
        let db1 :=
          with_users db
            (updateUserRows (u_id user) (setCode code codeExpiresAt) (users db)) in
        let db2 :=
          with_outbox db1
            (outbox db1 ++ [mkEmail email code (c_name (u_company user))]) in
        (* Always return success (security) *)
        (resendResponse, db2)
      else (resendResponse, db)
  | None => (resendResponse, db)
  end.


(** The fields [verifyEmailSchema.parse] rejects:
    [email: z.string().email()], [code: z.string().length(6)]. *)
Definition verifyIssues (email code : string) : list string :=
  (if isEmail email then [] else ["email"])
  ++ (if Nat.eqb (String.length code) 6 then [] else ["code"]).

(** [data: { emailVerified: true, isActive: true, verificationCode: null,
    codeExpiresAt: null }] *)
Definition setVerified (u : User) : User :=
  mkUser (u_id u) (u_email u) (u_password u) (u_name u) (u_role u)
         (u_company u) true true None None
         (u_failedAttempts u) (u_lockedUntil u) (u_lastLogin u).

(** [user.codeExpiresAt && user.codeExpiresAt < new Date()] *)
Definition codeExpired (u : User) (now : Z) : bool :=
  match u_codeExpiresAt u with
  | Some codeExpiresAt => codeExpiresAt <? now
  | None => false
  end.

(** [POST /api/auth/verify-email]. The welcome mail it sends is not a
    verification mail and is not recorded in the outbox. *)
Definition verifyEmail (email code : string) (now : Z) (db : Db.t)
  : Response UserView * Db.t :=
  match verifyIssues email code with
  | _ :: _ as issues => (invalid "Données invalides" issues, db)
  | [] =>
  match findUserByEmail db (toLowerCase email) with
  | None => (failure 400 (Text "Code invalide"), db)
  | Some user =>
  if u_emailVerified user then
    (failure 400 (Text "Email déjà vérifié"), db)
  else if negb (optString_eqb (u_verificationCode user) (Some code)) then
    (failure 400 (Text "Code incorrect"), db)
  else if codeExpired user now then
    (failure 400 (Text "Code expiré"), db)
  else
    (* Verify user *)
    let db1 :=
      with_users db (updateUserRows (u_id user) setVerified (users db)) in
    (* Generate tokens *)
    let tokens := generateTokens (u_id user) (u_role user) (u_companyId user) now in
    (* Save refresh token *)
    let db2 :=
      with_refreshTokens db1
        (refreshTokens db1
         ++ [mkRefreshToken (snd tokens) (u_id user) (now + days7) None]) in
    (mkResponse 200 true None None false []
                [("accessToken", fst tokens); ("refreshToken", snd tokens)]
                (Some (viewOf user)),
     db2)
  end
  end.

End Routes.

End Auth.


(** ** src/lib/api.ts: the client of the API *)
Module Client.
Import Http.

(** The two cookies the browser holds for the API. *)
Record Jar := mkJar {
  accessCookie : option Jwt.Credential;
  refreshCookie : option Jwt.Credential
}.

(** [class ApiError] *)
Record ApiError := mkApiError {
  ae_message : Message;
  ae_status : Z;
  ae_code : option string;
  ae_errors : list string
}.

(** [response.ok]: a status from 200 to 299. *)
Definition ok {A} (r : Response A) : bool :=
  (200 <=? status r) && (status r <=? 299).

(** The browser keeps the cookies a response sets. *)
Fixpoint keep (jar : Jar) (cookies : list (string * Jwt.Credential)) : Jar :=
  match cookies with
  | [] => jar
  | (name, value) :: rest =>
      keep (if String.eqb name "accessToken"
            then mkJar (Some value) (refreshCookie jar)
            else if String.eqb name "refreshToken"
                 then mkJar (accessCookie jar) (Some value)
                 else jar)
           rest
  end.

(** [new ApiError(json.message || 'Une erreur est survenue',
    response.status, json.code, json.errors)] *)
Definition toError {A} (r : Response A) : ApiError :=
  mkApiError (orElse (message r) (Text "Une erreur est survenue"))
             (status r) (code r) (errors r).

(** A route handler behind the [auth] middleware. *)
Definition Endpoint (A : Type) : Type :=
  Identity -> Z -> Db.t -> Response A * Db.t.

(** The answer of the guard, as the answer of the route it protects. *)
Definition denied {A} (r : Response unit) : Response A :=
  mkResponse (status r) (success r) (message r) (code r)
             (requiresVerification r) (errors r) (cookies r) None.

(** The server side of one [fetch] of a guarded route, the cookies of
    the jar sent along ([credentials: 'include']). *)
Definition fetchGuarded {A} (JWT_SECRET : string) (endpoint : Endpoint A)
  (jar : Jar) (now : Z) (db : Db.t) : Response A * Db.t :=
  match Auth.auth JWT_SECRET (accessCookie jar) None now db with
  | inl r => (denied r, db)
  | inr identity => endpoint identity now db
  end.

Section Requests.

Variable JWT_SECRET : string.
Variable REFRESH_TOKEN_SECRET : string.

(** [request(method, endpoint, data, true)]: the retry, which gives up on
    any failure. *)
Definition retry {A} (endpoint : Endpoint A) (jar : Jar) (now : Z) (db : Db.t)
  : (ApiError + Response A) * Jar * Db.t :=
  let '(response, db1) := fetchGuarded JWT_SECRET endpoint jar now db in
  if negb (ok response) then (inl (toError response), jar, db1)
  else (inr response, keep jar (cookies response), db1).

(** [handleTokenRefresh] when no other refresh is under way. *)
Definition handleTokenRefresh {A} (endpoint : Endpoint A) (jar : Jar)
  (refreshAt retryAt : Z) (db : Db.t)
  : (ApiError + Response A) * Jar * Db.t :=
  let '(refreshResponse, db1) :=
    Auth.refresh JWT_SECRET REFRESH_TOKEN_SECRET (refreshCookie jar) refreshAt db in
  if negb (ok refreshResponse) then
    (* Session expirée - rediriger vers login *)
    (inl (mkApiError (Text "Session expirée") 401 None []), jar, db1)
  else
    (* Retry original request *)
    retry endpoint (keep jar (cookies refreshResponse)) retryAt db1.

(** [request(method, endpoint, data)]; the three instants are those of the
    first fetch, of the refresh and of the retry. *)
Definition request {A} (endpoint : Endpoint A) (jar : Jar)
  (now refreshAt retryAt : Z) (db : Db.t)
  : (ApiError + Response A) * Jar * Db.t :=
  let '(response, db1) := fetchGuarded JWT_SECRET endpoint jar now db in
  if negb (ok response) then
    (* Handle token expiration *)
    if (status response =? 401)
       && optString_eqb (code response) (Some "TOKEN_EXPIRED")
    then handleTokenRefresh endpoint jar refreshAt retryAt db1
    else (inl (toError response), jar, db1)
  else (inr response, keep jar (cookies response), db1).

End Requests.

End Client.


(** ** server/routes/ai.ts: the customs duty calculator *)
Module Customs.
Import Http.

(** A JavaScript number: an IEEE-754 binary64 value. *)
Definition double : Type := spec_float.

Definition prec : Z := 53.
Definition emax : Z := 1024.

(** An integer literal (exact below 2^53). *)
Definition ofInteger (n : Z) : double := binary_normalize prec emax n 0 false.

Definition mulD : double -> double -> double := SFmul prec emax.
Definition addD : double -> double -> double := SFadd prec emax.
Definition ltD : double -> double -> bool := SFltb.

(** The decimal literal [m / 10^k]: the double nearest to it. *)
Definition decimal (m k : Z) : double :=
  SFdiv prec emax (ofInteger m) (ofInteger (10 ^ k)).

(** [Math.round]: the integer nearest to [x], a tie going up; zeros,
    infinities and NaN are returned as they are. For a finite [x] below
    2^52 in magnitude this is [floor(x + 1/2)], computed exactly. *)
Definition mathRound (x : double) : double :=
  match x with
  | S754_finite s m e =>
      if 0 <=? e then x
      else
        let n := (2 * cond_Zopp s (Zpos m) + 2 ^ (- e)) / 2 ^ (1 - e) in
        match n with
        | Z0 => S754_zero s
        | _ => ofInteger n
        end
  | _ => x
  end.

(** One line of the [duties] object. *)
Record Line := mkLine {
  rate : option double;
  base : option double;
  amount : double
}.

Record Duties := mkDuties {
  dd : Line;
  rtl : Line;
  pc : Line;
  ca : Line;
  tva : Line;
  bfu : Line
}.

(** The [data] object of the response. *)
Record Calculation := mkCalculation {
  hsCode : string;
  cifValue : double;
  cifCurrency : string;
  exchangeRate : double;
  cifValueGnf : double;
  duties : Duties;
  totalDuties : double
}.

(** [const rates: Record<string, number>] *)
Definition rates : list (string * double) :=
  [("USD", ofInteger 8646); ("EUR", ofInteger 9400); ("GNF", ofInteger 1)].

Fixpoint lookup (table : list (string * double)) (key : string) : option double :=
  match table with
  | [] => None
  | (k, v) :: rest => if String.eqb k key then Some v else lookup rest key
  end.

(** [rates[currency] || rates.USD] *)
Definition rateOf (currency : string) : double :=
  orElse (lookup rates currency) (ofInteger 8646).

(** Guinea customs rates *)
Definition ddRate : double := decimal 35 2.    (* 0.35   Droit de Douane *)
Definition rtlRate : double := decimal 2 2.    (* 0.02   RTL *)
Definition pcRate : double := decimal 5 3.     (* 0.005  PC *)
Definition caRate : double := decimal 25 4.    (* 0.0025 CA *)
Definition tvaRate : double := decimal 18 2.   (* 0.18   TVA *)

(** BFU (fixed based on value) *)
Definition bfuOf (valueGnf : double) : double :=
  if ltD (ofInteger 100000000) valueGnf then ofInteger 500000
  else if ltD (ofInteger 50000000) valueGnf then ofInteger 350000
  else ofInteger 200000.

(** [calculateSchema]: [hsCode: z.string().min(4)],
    [value: z.number().positive()]. *)
Definition calculateSchemaAccepts (hsCode : string) (value : double) : bool :=
  Nat.leb 4 (String.length hsCode) && ltD (S754_zero false) value.

(** [POST /api/ai/calculate-customs]; an absent [currency] is USD. *)
Definition calculateCustoms (hsCode : string) (value : double)
  (currency : option string) : Response Calculation :=
  if negb (calculateSchemaAccepts hsCode value)
  then failure 400 (Text "Données invalides")
  else
    let currency := orElse currency "USD" in
    let rate := rateOf currency in
    let valueGnf := mulD value rate in
    (* Calculate duties *)
    let dd := mathRound (mulD valueGnf ddRate) in
    let rtl := mathRound (mulD valueGnf rtlRate) in
    let pc := mathRound (mulD valueGnf pcRate) in
    let ca := mathRound (mulD valueGnf caRate) in
    (* TVA base includes DD *)
    let tvaBase := addD valueGnf dd in
    let tva := mathRound (mulD tvaBase tvaRate) in
    let bfu := bfuOf valueGnf in
    let totalDuties := addD (addD (addD (addD (addD dd rtl) pc) ca) tva) bfu in
    let hundred := ofInteger 100 in
    okData 200
      (mkCalculation hsCode value currency rate valueGnf
         (mkDuties
            (mkLine (Some (mulD ddRate hundred)) None dd)
            (mkLine (Some (mulD rtlRate hundred)) None rtl)
            (mkLine (Some (mulD pcRate hundred)) None pc)
            (mkLine (Some (mulD caRate hundred)) None ca)
            (mkLine (Some (mulD tvaRate hundred)) (Some tvaBase) tva)
            (mkLine None None bfu))
         totalDuties).

(** The integer a double stands for, when it stands for one. *)
Definition integerOf (x : double) : option Z :=
  match x with
  | S754_zero _ => Some 0
  | S754_finite s m e =>
      if 0 <=? e then Some (cond_Zopp s (Zpos m * 2 ^ e))
      else if Zpos m mod 2 ^ (- e) =? 0
           then Some (cond_Zopp s (Zpos m / 2 ^ (- e)))
           else None
  | _ => None
  end.

End Customs.


(** ** Concrete stores and requests used by the examples *)
Module Fixtures.
Import Http Db.

Definition accountant : Identity :=
  mkIdentity "u-compta" "compta@emergence-transit.com" "Mariama" "ACCOUNTANT" "c1".

Definition agent : Identity :=
  mkIdentity "u-agent" "agent@emergence-transit.com" "Ibrahima" "AGENT" "c1".

Definition demoShipment : Shipment :=
  mkShipment "s1" "c1" "TR-DEMO-001" "SOGECO SARL" "OIGNONS"
             (Some "MEDU09243710") CUSTOMS_PAID None None None.

(** A store with one shipment and an empty ledger. *)
Definition emptyLedger : Db.t :=
  Db.mk [] [] [demoShipment] [] [] [].

Definition provisionOf (amount : Z) : Finance.CreateExpenseBody :=
  Finance.mkCreateExpenseBody "s1" PROVISION "AUTRE" "Avance client SOGECO"
                              amount None None None None.

Definition disbursementOf (amount : Z) : Finance.CreateExpenseBody :=
  Finance.mkCreateExpenseBody "s1" DISBURSEMENT "DD" "Droit de Douane"
                              amount None None None None.

(** [{ paid: true }] *)
Definition patchPaid : Finance.ExpensePatch :=
  Finance.mkExpensePatch None None None None None None None None (Some true) None.

(** [{ paidAt: <instant 1> }] *)
Definition patchPaidAt : Finance.ExpensePatch :=
  Finance.mkExpensePatch None None None None None None None None None
                         (Some (Some 1)).

(** A ledger holding a provision of 100 and an unpaid disbursement of 30. *)
Definition smallLedger : Db.t :=
  Finance.run false accountant 0 emptyLedger
    [Finance.CreateExpense (provisionOf 100) "e1";
     Finance.CreateExpense (disbursementOf 30) "e2"].

(** The same ledger once the disbursement is paid at instant 7. *)
Definition paidLedger : Db.t :=
  Finance.step false accountant 7 smallLedger (Finance.PayExpense "e2").

(** [{ status: st }] *)
Definition patchStatus (st : ShipmentStatus) : Shipments.ShipmentPatch :=
  Shipments.mkShipmentPatch None None None (Shipments.StatusValue st)
                            None None None.

(** A stand-in for bcrypt: the hash of a password is the password behind
    a prefix. *)
Definition plainCompare (password hash : string) : bool :=
  String.eqb (String.append "bcrypt:" password) hash.

(** A stand-in for the e-mail pattern of zod: the string holds an at sign. *)
Fixpoint hasAt (s : string) : bool :=
  match s with
  | EmptyString => false
  | String c rest => Ascii.eqb c "@"%char || hasAt rest
  end.

Definition demoCompany : Company := mkCompany "c1" "EMERGENCE TRANSIT GUINEE".

(** The verified, active director of the seed data. *)
Definition admin : User :=
  mkUser "u-admin" "admin@emergence-transit.com" "bcrypt:Admin123!"
         "Administrateur" "DIRECTOR" demoCompany true true None None 0 None None.

(** A registered user who has not confirmed the address yet. *)
Definition newcomer : User :=
  mkUser "u-new" "nouveau@emergence-transit.com" "bcrypt:Secret123"
         "Nouveau" "AGENT" demoCompany false false (Some "123456") (Some 900000)
         0 None None.

Definition accounts : Db.t :=
  Db.mk [admin; newcomer] [] [] [] [] [].

(** The accounts when the director has already failed four times. *)
Definition strained : Db.t :=
  Db.mk [Auth.setFailure 4 None admin; newcomer] [] [] [] [] [].

(** The director logs in at instant 1000000. *)
Definition adminLogin : Response Auth.UserView * Db.t :=
  Auth.login plainCompare hasAt "jwt-secret" "refresh-secret"
             "admin@emergence-transit.com" "Admin123!" "000000" 1000000 accounts.

(** The credentials that login sets as cookies. *)
Definition adminTokens : Jwt.Credential * Jwt.Credential :=
  Auth.generateTokens "jwt-secret" "refresh-secret" "u-admin" "DIRECTOR" "c1" 1000000.

(** The identity the guard attaches for the director. *)
Definition adminIdentity : Identity :=
  mkIdentity "u-admin" "admin@emergence-transit.com" "Administrateur"
             "DIRECTOR" "c1".

(** A shipment of another company, and a ledger shared by the two. *)
Definition otherShipment : Shipment :=
  mkShipment "s2" "c2" "TR-DEMO-002" "AUTRE CLIENT" "RIZ" None PENDING
             None None None.

Definition sharedLedger : Db.t :=
  Db.mk [] [] [demoShipment; otherShipment] []
        [mkExpense "e1" "s1" PROVISION "AUTRE" "Avance client SOGECO" 100
                   None None None None false None;
         mkExpense "e2" "s1" DISBURSEMENT "DD" "Droit de Douane" 30
                   None None None None false None;
         mkExpense "f1" "s2" PROVISION "AUTRE" "Avance" 500
                   None None None None false None;
         mkExpense "e3" "s1" DISBURSEMENT "TVA" "TVA" 20
                   None None None None true (Some 3);
         mkExpense "e4" "s1" DISBURSEMENT "DD" "Complement" 5
                   None None None None false None]
        [].

End Fixtures.

(* ================================================================== *)
(** * Part II: the properties                                          *)
(* ================================================================== *)

(** ** General lemmas on tables *)

(** Componentwise equality of tuples of integers. *)
Ltac pair_lia := repeat (apply (f_equal2 pair)); lia.

Lemma find_map_stable {A : Type} (P : A -> bool) (f : A -> A) (l : list A) :
  (forall x, P (f x) = P x) ->
  find P (map f l) = option_map f (find P l).
Proof.
  intros HP. induction l as [|x l IH]; simpl; [reflexivity|].
  rewrite HP. destruct (P x); [reflexivity | exact IH].
Qed.

Lemma find_some_holds {A : Type} (P : A -> bool) (l : list A) (x : A) :
  find P l = Some x -> P x = true.
Proof. intros H. apply find_some in H. tauto. Qed.

Lemma accountant_may_pass {A : Type} (caller : Http.Identity) :
  Http.includes ["DIRECTOR"; "ACCOUNTANT"] (Http.role caller) = true ->
  @Http.requireAccountant A caller = None.
Proof.
  intros H. unfold Http.requireAccountant, Http.requireRole. now rewrite H.
Qed.

(** ** The ledger *)
Section LedgerFacts.
Import Http Db Finance.

Lemma sumAmounts_cons (e : Expense) (es : list Expense) :
  sumAmounts (e :: es) = e_amount e + sumAmounts es.
Proof. reflexivity. Qed.

(** The loop of the pay handler adds the provisions to its first counter
    and the paid disbursements to its second. *)
Lemma balance_loop (es : list Expense) (p d : Z) :
  fold_left balanceStep es (p, d)
  = (p + sumAmounts (filter isProvision es),
     d + sumAmounts (filter isPaidDisbursement es)).
Proof.
  revert p d. induction es as [|e es IH]; intros p d.
  - simpl. pair_lia.
  - cbn [fold_left filter].
    assert (Hstep : balanceStep (p, d) e
                    = (p + (if isProvision e then e_amount e else 0),
                       d + (if isPaidDisbursement e then e_amount e else 0))).
    { unfold balanceStep, isProvision, isPaidDisbursement.
      destruct (e_type e), (e_paid e); simpl; pair_lia. }
    rewrite Hstep, IH.
    destruct (isProvision e), (isPaidDisbursement e);
      rewrite ?sumAmounts_cons; pair_lia.
Qed.

(** The balance the pay handler recomputes is the balance of the
    specification. *)
Lemma currentBalance_is_specBalance (es : list Expense) :
  currentBalance es = specBalance es.
Proof.
  unfold currentBalance, specBalance. rewrite balance_loop. simpl. lia.
Qed.

(** So does the loop of the shipment summary. *)
Lemma summary_loop (es : list Expense) (p d q : Z) :
  fold_left summaryStep es (p, d, q)
  = (p + sumAmounts (filter isProvision es),
     d + sumAmounts (filter (fun e => negb (isProvision e)) es),
     q + sumAmounts (filter isPaidDisbursement es)).
Proof.
  revert p d q. induction es as [|e es IH]; intros p d q.
  - simpl. pair_lia.
  - cbn [fold_left filter].
    assert (Hstep : summaryStep (p, d, q) e
                    = (p + (if isProvision e then e_amount e else 0),
                       d + (if negb (isProvision e) then e_amount e else 0),
                       q + (if isPaidDisbursement e then e_amount e else 0))).
    { unfold summaryStep, isProvision, isPaidDisbursement.
      destruct (e_type e), (e_paid e); simpl; pair_lia. }
    rewrite Hstep, IH.
    destruct (isProvision e), (isPaidDisbursement e); cbn [negb];
      rewrite ?sumAmounts_cons; pair_lia.
Qed.

Lemma reportedBalance_is_specBalance caller shipmentId db shipment :
  findShipment db shipmentId (companyId caller) = Some shipment ->
  reportedBalance caller shipmentId db
  = Some (specBalance (expensesOf db (s_id shipment))).
Proof.
  intros Hs. unfold reportedBalance, shipmentSummary. rewrite Hs.
  rewrite summary_loop. simpl. unfold specBalance. reflexivity.
Qed.

(** Rewriting the rows of one id with a function that keeps the id and
    the shipment of a row does not disturb the lookup by id. *)
Lemma findExpense_after_update db id companyId expense f :
  (forall e, e_id (f e) = e_id e) ->
  (forall e, e_shipmentId (f e) = e_shipmentId e) ->
  findExpense db id companyId = Some expense ->
  findExpense (with_expenses db (updateExpenseRows (e_id expense) f (expenses db)))
              id companyId
  = Some (f expense).
Proof.
  intros Hid Hsh Hfind. unfold findExpense, updateExpenseRows in *. simpl.
  rewrite find_map_stable.
  - unfold shipmentOfCompany in *. simpl. rewrite Hfind. simpl.
    now rewrite String.eqb_refl.
  - intros e. destruct (String.eqb (e_id e) (e_id expense));
      [now rewrite Hid, Hsh | reflexivity].
Qed.

End LedgerFacts.

Section LedgerClaims.
Import Http Db Finance Fixtures.



(** C3. An expense whose paid flag is true: a pay request on it fails with
    the already-paid message and a delete request fails with the
    cannot-delete-paid message (both status 400), and either leaves the
    whole store, that expense and every other row, as it was. *)
Theorem paid_expense_is_immutable caller id now db expense :
  includes ["DIRECTOR"; "ACCOUNTANT"] (role caller) = true ->
  findExpense db id (companyId caller) = Some expense ->
  e_paid expense = true ->
  payExpense caller id now db
  = (failure 400 (Text "Dépense déjà payée"), db)
  /\ deleteExpense caller id db
     = (failure 400 (Text "Impossible de supprimer une dépense payée"), db).
Proof.
  intros Hrole Hfind Hpaid. unfold payExpense, deleteExpense.
  rewrite !(accountant_may_pass caller Hrole), Hfind, Hpaid. split; reflexivity.
Qed.

(** The ledger above once the disbursement is paid: paying it again and
    deleting it are both refused. *)
Lemma paid_expense_is_immutable_witness :
  includes ["DIRECTOR"; "ACCOUNTANT"] (role accountant) = true
  /\ findExpense paidLedger "e2" (companyId accountant)
     = Some (mkExpense "e2" "s1" DISBURSEMENT "DD" "Droit de Douane" 30
                       None None None None true (Some 7))
  /\ snd (payExpense accountant "e2" 9 paidLedger) = paidLedger
  /\ snd (deleteExpense accountant "e2" paidLedger) = paidLedger.
Proof.
  split; [reflexivity|]. split; [reflexivity|].
  destruct (paid_expense_is_immutable accountant "e2" 9 paidLedger
              (mkExpense "e2" "s1" DISBURSEMENT "DD" "Droit de Douane" 30
                         None None None None true (Some 7))
              eq_refl eq_refl eq_refl) as [Hpay Hdelete].
  rewrite Hpay, Hdelete. split; reflexivity.
Defined.

End LedgerClaims.

Section LedgerPatchClaims.
Import Http Db Finance Fixtures.

(** C8, as stated: the stored [paidAt] never comes from the client, that
    is, it is the server clock when the patch turns an unpaid expense paid
    and the value already stored otherwise. The handler does not do that: a
    patch [{ paidAt: 1 }] sent at instant 1000 on an unpaid expense stores
    the instant 1 of the client. *)
Lemma updateExpense_paidAt_counterexample :
  ~ (forall caller id body now db expense updated db',
        includes ["DIRECTOR"; "ACCOUNTANT"] (role caller) = true ->
        findExpense db id (companyId caller) = Some expense ->
        updateExpense caller id body now db = (okData 200 updated, db') ->
        e_paidAt updated
        = if paidIsTrue body && negb (e_paid expense)
          then Some now else e_paidAt expense).
Proof.
  intros Hclaim.
  specialize (Hclaim accountant "e2" patchPaidAt 1000 smallLedger
                     _ _ _ eq_refl eq_refl eq_refl).
  vm_compute in Hclaim. discriminate Hclaim.
Qed.

(** C8, amended. An update request by an accountant or a director of the
    company on an expense of the company stores the patched row: when the
    patch sets [paid] to true and the stored expense was unpaid, the stored
    [paidAt] is the server clock, whatever [paidAt] the patch carries; in
    every other case a [paidAt] carried by the patch is stored as given
    (and the stored one is kept when the patch carries none); every other
    column of the patch is stored as given, the absent ones are kept. *)
Theorem updateExpense_stamps_paidAt caller id body now db expense :
  includes ["DIRECTOR"; "ACCOUNTANT"] (role caller) = true ->
  findExpense db id (companyId caller) = Some expense ->
  exists updated db',
    updateExpense caller id body now db = (okData 200 updated, db')
    /\ findExpense db' id (companyId caller) = Some updated
    /\ e_paidAt updated
       = (if paidIsTrue body && negb (e_paid expense) then Some now
          else orElse (p_paidAt body) (e_paidAt expense))
    /\ e_paid updated = orElse (p_paid body) (e_paid expense)
    /\ e_type updated = orElse (p_type body) (e_type expense)
    /\ e_category updated = orElse (p_category body) (e_category expense)
    /\ e_description updated = orElse (p_description body) (e_description expense)
    /\ e_amount updated = orElse (p_amount body) (e_amount expense)
    /\ e_quantity updated = orElse (p_quantity body) (e_quantity expense)
    /\ e_unitPrice updated = orElse (p_unitPrice body) (e_unitPrice expense)
    /\ e_reference updated = orElse (p_reference body) (e_reference expense)
    /\ e_supplier updated = orElse (p_supplier body) (e_supplier expense).
Proof.
  intros Hrole Hfind. unfold updateExpense.
  rewrite (accountant_may_pass caller Hrole), Hfind.
  set (updateData := if paidIsTrue body && negb (e_paid expense)
                     then set_paidAt body now else body).
  exists (applyPatch updateData expense),
    (with_expenses db
       (updateExpenseRows (e_id expense) (applyPatch updateData) (expenses db))).
  split; [reflexivity|]. split.
  - now apply findExpense_after_update.
  - subst updateData.
    destruct (paidIsTrue body && negb (e_paid expense)); repeat split.
Qed.

(** The patch [{ paid: true, paidAt: 1 }] on the unpaid disbursement of
    the small ledger, sent at instant 1000: the server clock is stored. *)
Lemma updateExpense_stamps_paidAt_witness :
  includes ["DIRECTOR"; "ACCOUNTANT"] (role accountant) = true
  /\ findExpense smallLedger "e2" (companyId accountant)
     = Some (mkExpense "e2" "s1" DISBURSEMENT "DD" "Droit de Douane" 30
                       None None None None false None)
  /\ exists updated db',
       updateExpense accountant "e2" (set_paidAt patchPaid 1) 1000 smallLedger
       = (okData 200 updated, db')
       /\ e_paidAt updated = Some 1000.
Proof.
  split; [reflexivity|]. split; [reflexivity|].
  destruct (updateExpense_stamps_paidAt accountant "e2" (set_paidAt patchPaid 1)
              1000 smallLedger
              (mkExpense "e2" "s1" DISBURSEMENT "DD" "Droit de Douane" 30
                         None None None None false None)
              eq_refl eq_refl)
    as (updated & db' & Hrun & _ & HpaidAt & _).
  exists updated, db'. split; [exact Hrun | exact HpaidAt].
Defined.

(** C1, on the code. Provision 100 and disbursement 150 on one shipment:
    the pay request on the disbursement is refused (the balance is 100),
    yet the update request [{ paid: true }] marks it paid without the
    balance check and the shipment reports a balance of -50. Likewise,
    with provision 100 and a paid disbursement of 80, deleting the
    provision (which is not marked paid) leaves a balance of -80. *)
Theorem ledger_balance_can_go_negative :
  let db :=
    run false accountant 5 emptyLedger
        [CreateExpense (provisionOf 100) "e1";
         CreateExpense (disbursementOf 150) "e2"] in
  let db' :=
    run false accountant 5 emptyLedger
        [CreateExpense (provisionOf 100) "e1";
         CreateExpense (disbursementOf 80) "e2";
         PayExpense "e2"] in
  reportedBalance accountant "s1" db = Some 100
  /\ payExpense accountant "e2" 6 db = (failure 400 (SoldeInsuffisant 100), db)
  /\ reportedBalance accountant "s1"
       (step false accountant 6 db (UpdateExpense "e2" patchPaid)) = Some (-50)
  /\ reportedBalance accountant "s1" db' = Some 20
  /\ reportedBalance accountant "s1"
       (step false accountant 6 db' (DeleteExpense "e1")) = Some (-80).
Proof. vm_compute. repeat split. Qed.

End LedgerPatchClaims.

(** ** The status history of a shipment *)
Section ShipmentClaims.
Import Http Db Shipments Fixtures.

Lemma agent_may_pass {A : Type} (caller : Identity) :
  includes ["DIRECTOR"; "ACCOUNTANT"; "AGENT"] (role caller) = true ->
  @requireAgent A caller = None.
Proof. intros H. unfold requireAgent, requireRole. now rewrite H. Qed.

(** [!==] on two status names tells the statuses apart. *)
Lemma status_eqb_eq (a b : ShipmentStatus) : status_eqb a b = true <-> a = b.
Proof.
  split.
  - destruct a, b; intros H; try reflexivity; vm_compute in H; discriminate H.
  - intros ->. unfold status_eqb. apply String.eqb_refl.
Qed.

Lemma statusChanged_differs body shipment st :
  sp_status body = StatusValue st ->
  st <> s_status shipment ->
  statusChanged body shipment = Some st.
Proof.
  intros Hst Hne. unfold statusChanged. rewrite Hst.
  destruct (status_eqb st (s_status shipment)) eqn:E; [|reflexivity].
  apply status_eqb_eq in E. contradiction.
Qed.

Lemma statusChanged_same body shipment :
  sp_status body = StatusAbsent
  \/ sp_status body = StatusValue (s_status shipment) ->
  statusChanged body shipment = None.
Proof.
  intros [H | H]; unfold statusChanged; rewrite H; [reflexivity|].
  now rewrite (proj2 (status_eqb_eq _ _) eq_refl).
Qed.

(** C9, as stated: the timeline event is written in the transaction of
    the field update, so a run of the handler either writes both or leaves
    the store as it was. The handler awaits two separate writes: when the
    insertion of the event throws, the status CUSTOMS_PAID of the shipment
    has already been overwritten with BAE_ISSUED and no event records
    it. *)
Lemma patchShipment_transaction_counterexample :
  ~ (forall fault caller id body now db,
        snd (patchShipment fault caller id body now db) = db
        \/ snd (patchShipment fault caller id body now db)
           = snd (patchShipment None caller id body now db)).
Proof.
  intros Hatomic.
  destruct (Hatomic (Some CreateTimelineEvent) agent "s1"
                    (patchStatus BAE_ISSUED) 42 emptyLedger) as [H | H];
    vm_compute in H; discriminate H.
Qed.

(** C9, amended. An update request by an agent, accountant or director of
    the company on a shipment of the company, with a well-formed body,
    when no storage call fails: the patched row is stored; if the body
    carries a status different from the stored one, exactly one timeline
    event is appended, recording the new status and the acting user; if
    the body carries no status, or the stored one, no event is appended.
    The event is a write of its own, issued after the field update: when
    that insertion fails the request answers 500 and the field update
    stays, without an event. *)
Theorem patchShipment_timeline caller id body now db shipment :
  includes ["DIRECTOR"; "ACCOUNTANT"; "AGENT"] (role caller) = true ->
  findShipment db id (companyId caller) = Some shipment ->
  (forall raw, sp_status body <> StatusInvalid raw) ->
  let patched :=
    with_shipments db
      (updateShipmentRows id (applyShipmentPatch body) (shipments db)) in
  (forall st,
      sp_status body = StatusValue st -> st <> s_status shipment ->
      patchShipment None caller id body now db
      = (okData 200 (applyShipmentPatch body shipment),
         with_timeline patched
           (timeline db
            ++ [mkTimelineEvent (s_id shipment)
                                (String.append "Statut changé: " (statusName st))
                                (Some (Http.id caller)) (Some (name caller)) now]))
      /\ patchShipment (Some CreateTimelineEvent) caller id body now db
         = (updateError, patched))
  /\
  (sp_status body = StatusAbsent
   \/ sp_status body = StatusValue (s_status shipment) ->
   patchShipment None caller id body now db
   = (okData 200 (applyShipmentPatch body shipment), patched)
   /\ timeline patched = timeline db).
Proof.
  intros Hrole Hfind Hvalid patched. split.
  - intros st Hst Hne. unfold patchShipment.
    rewrite (agent_may_pass caller Hrole), Hfind. cbn [throws call_eqb].
    rewrite (statusChanged_differs body shipment st Hst Hne), Hst.
    split; reflexivity.
  - intros Hsame. unfold patchShipment.
    rewrite (agent_may_pass caller Hrole), Hfind. cbn [throws].
    rewrite (statusChanged_same body shipment Hsame).
    destruct (sp_status body) eqn:E; try (split; reflexivity).
    exfalso. exact (Hvalid raw eq_refl).
Qed.

(** The agent moves the demonstration shipment from CUSTOMS_PAID to
    BAE_ISSUED at instant 42: one event, naming the status and the agent. *)
Lemma patchShipment_timeline_witness :
  includes ["DIRECTOR"; "ACCOUNTANT"; "AGENT"] (role agent) = true
  /\ findShipment emptyLedger "s1" (companyId agent) = Some demoShipment
  /\ timelineOf (snd (patchShipment None agent "s1" (patchStatus BAE_ISSUED)
                                    42 emptyLedger)) "s1"
     = [mkTimelineEvent "s1" "Statut changé: BAE_ISSUED"
                        (Some "u-agent") (Some "Ibrahima") 42]
  /\ timelineOf (snd (patchShipment None agent "s1" (patchStatus CUSTOMS_PAID)
                                    42 emptyLedger)) "s1"
     = [].
Proof.
  split; [reflexivity|]. split; [reflexivity|].
  assert (Hvalid : forall st raw,
             sp_status (patchStatus st) <> StatusInvalid raw)
    by (intros st raw; discriminate).
  destruct (patchShipment_timeline agent "s1" (patchStatus BAE_ISSUED) 42
              emptyLedger demoShipment eq_refl eq_refl (Hvalid BAE_ISSUED))
    as [Hchange _].
  destruct (Hchange BAE_ISSUED eq_refl ltac:(discriminate)) as [Hrun _].
  destruct (patchShipment_timeline agent "s1" (patchStatus CUSTOMS_PAID) 42
              emptyLedger demoShipment eq_refl eq_refl (Hvalid CUSTOMS_PAID))
    as [_ Hsame].
  destruct (Hsame (or_intror eq_refl)) as [Hrun' _].
  rewrite Hrun, Hrun'. split; reflexivity.
Defined.

End ShipmentClaims.

(** ** Sessions *)
Section SessionFacts.
Import Http Db Auth.

Variable compare : string -> string -> bool.
Variable isEmail : string -> bool.
Variable JWT_SECRET : string.
Variable REFRESH_TOKEN_SECRET : string.

Local Abbreviation login := (Auth.login compare isEmail JWT_SECRET REFRESH_TOKEN_SECRET).

(** Rewriting the rows of one id with a function that keeps the address
    of a row does not disturb the lookup by address. *)
Lemma findUserByEmail_after_update db address user f :
  (forall u, u_email (f u) = u_email u) ->
  findUserByEmail db address = Some user ->
  findUserByEmail (with_users db (updateUserRows (u_id user) f (users db))) address
  = Some (f user).
Proof.
  intros Hemail Hfind. unfold findUserByEmail, updateUserRows in *. simpl.
  rewrite find_map_stable.
  - rewrite Hfind. simpl. now rewrite String.eqb_refl.
  - intros u. destruct (String.eqb (u_id u) (u_id user));
      [now rewrite Hemail | reflexivity].
Qed.

Lemma loginIssues_none email password :
  isEmail email = true -> String.eqb password "" = false ->
  loginIssues isEmail email password = [].
Proof. intros He Hp. unfold loginIssues. now rewrite He, Hp. Qed.

(** [Math.ceil] of a positive number of milliseconds: the least number of
    whole minutes that covers it. *)
Lemma ceilMinutes_bounds (ms : Z) :
  (ceilMinutes ms - 1) * 60000 < ms <= ceilMinutes ms * 60000.
Proof.
  unfold ceilMinutes.
  pose proof (Z.div_mod (- ms) 60000 ltac:(lia)) as Hdm.
  pose proof (Z.mod_pos_bound (- ms) 60000 ltac:(lia)) as Hmod.
  lia.
Qed.

(** During the lock window every attempt is answered 423 with the minutes
    left, whatever the password, and the store is left as it was. *)
Lemma login_while_locked email password code now db user lockedUntil :
  isEmail email = true -> String.eqb password "" = false ->
  findUserByEmail db (toLowerCase email) = Some user ->
  u_lockedUntil user = Some lockedUntil ->
  now < lockedUntil ->
  login email password code now db
  = (failure 423 (CompteVerrouille (ceilMinutes (lockedUntil - now))), db).
Proof.
  intros He Hp Hfind Hlock Hnow. unfold Auth.login.
  rewrite (loginIssues_none email password He Hp), Hfind.
  unfold lockedAt. rewrite Hlock.
  apply Z.ltb_lt in Hnow. now rewrite Hnow.
Qed.

(** A wrong password on a verified, active account that is not locked:
    the counter grows by one, and the lock is set for 15 minutes once it
    reaches 5. *)
Lemma login_wrong_password email password code now db user :
  isEmail email = true -> String.eqb password "" = false ->
  findUserByEmail db (toLowerCase email) = Some user ->
  lockedAt user now = None ->
  u_emailVerified user = true -> u_isActive user = true ->
  compare password (u_password user) = false ->
  let failures := u_failedAttempts user + 1 in
  let lockedUntil := if 5 <=? failures then Some (now + 15 * 60 * 1000) else None in
  exists db',
    login email password code now db
    = (failure 401
         (if 5 <=? failures
          then Text "Trop de tentatives. Compte verrouillé pour 15 minutes."
          else incorrectCredentials),
       db')
    /\ findUserByEmail db' (toLowerCase email)
       = Some (setFailure failures lockedUntil user).
Proof.
  intros He Hp Hfind Hlock Hver Hact Hcmp failures lockedUntil.
  unfold Auth.login.
  rewrite (loginIssues_none email password He Hp), Hfind, Hlock, Hver, Hact, Hcmp.
  cbn [negb]. eexists. split; [reflexivity|].
  now apply findUserByEmail_after_update.
Qed.

(** The right password on a verified, active account that is not locked:
    the login succeeds and the counter is back to 0. *)
Lemma login_right_password email password code now db user :
  isEmail email = true -> String.eqb password "" = false ->
  findUserByEmail db (toLowerCase email) = Some user ->
  lockedAt user now = None ->
  u_emailVerified user = true -> u_isActive user = true ->
  compare password (u_password user) = true ->
  exists response db',
    login email password code now db = (response, db')
    /\ status response = 200 /\ success response = true
    /\ data response = Some (viewOf user)
    /\ findUserByEmail db' (toLowerCase email) = Some (setLoggedIn now user).
Proof.
  intros He Hp Hfind Hlock Hver Hact Hcmp. unfold Auth.login.
  rewrite (loginIssues_none email password He Hp), Hfind, Hlock, Hver, Hact, Hcmp.
  cbn [negb]. do 2 eexists. split; [reflexivity|]. repeat split.
  apply (findUserByEmail_after_update
           (with_refreshTokens db _) (toLowerCase email) user (setLoggedIn now));
    [reflexivity | exact Hfind].
Qed.

Lemma lockedAt_expired user now lockedUntil :
  u_lockedUntil user = Some lockedUntil -> lockedUntil <= now ->
  lockedAt user now = None.
Proof.
  intros Hlock Hnow. unfold lockedAt. rewrite Hlock.
  apply Z.ltb_ge in Hnow. now rewrite Hnow.
Qed.

Lemma lockedAt_never user now :
  u_lockedUntil user = None -> lockedAt user now = None.
Proof. intros Hlock. unfold lockedAt. now rewrite Hlock. Qed.

End SessionFacts.

Section SessionClaims.
Import Http Db Auth.

Variable compare : string -> string -> bool.
Variable isEmail : string -> bool.
Variable JWT_SECRET : string.
Variable REFRESH_TOKEN_SECRET : string.

Local Abbreviation login := (Auth.login compare isEmail JWT_SECRET REFRESH_TOKEN_SECRET).
Local Abbreviation resendCode := (Auth.resendCode isEmail).


(** Five wrong passwords in a row on a fresh account, at the instants
    [t1] to [t5]: the fifth sets the lock to [t5] + 15 minutes; a sixth
    attempt inside the window is answered 423 even with the right
    password; after the window the right password logs in and the
    counter is 0 again. *)
Lemma five_failures_lock_the_account
      email wrong right code db user t1 t2 t3 t4 t5 t6 t7 :
  isEmail email = true ->
  String.eqb wrong "" = false -> String.eqb right "" = false ->
  findUserByEmail db (toLowerCase email) = Some user ->
  u_emailVerified user = true -> u_isActive user = true ->
  u_failedAttempts user = 0 -> u_lockedUntil user = None ->
  compare wrong (u_password user) = false ->
  compare right (u_password user) = true ->
  t5 <= t6 < t5 + 15 * 60 * 1000 -> t5 + 15 * 60 * 1000 <= t7 ->
  let db1 := snd (login email wrong code t1 db) in
  let db2 := snd (login email wrong code t2 db1) in
  let db3 := snd (login email wrong code t3 db2) in
  let db4 := snd (login email wrong code t4 db3) in
  let db5 := snd (login email wrong code t5 db4) in
  findUserByEmail db4 (toLowerCase email) = Some (setFailure 4 None user)
  /\ findUserByEmail db5 (toLowerCase email)
     = Some (setFailure 5 (Some (t5 + 15 * 60 * 1000)) user)
  /\ status (fst (login email right code t6 db5)) = 423
  /\ snd (login email right code t6 db5) = db5
  /\ status (fst (login email right code t7 db5)) = 200
  /\ findUserByEmail (snd (login email right code t7 db5)) (toLowerCase email)
     = Some (setLoggedIn t7 (setFailure 5 (Some (t5 + 15 * 60 * 1000)) user)).
Proof.
  intros He Hw Hr Hfind Hver Hact Hzero Hfree Hwrong Hright Ht6 Ht7.
  assert (Hstep : forall t d u,
             findUserByEmail d (toLowerCase email) = Some u ->
             u_lockedUntil u = None ->
             u_emailVerified u = true -> u_isActive u = true ->
             u_password u = u_password user ->
             findUserByEmail (snd (login email wrong code t d)) (toLowerCase email)
             = Some (setFailure (u_failedAttempts u + 1)
                                (if 5 <=? u_failedAttempts u + 1
                                 then Some (t + 15 * 60 * 1000) else None) u)).
  { intros t d u Hu Hl Hv Ha Hpw.
    destruct (login_wrong_password compare isEmail JWT_SECRET REFRESH_TOKEN_SECRET
                email wrong code t d u He Hw Hu (lockedAt_never u t Hl) Hv Ha)
      as (d' & Hrun & Hfind'); [now rewrite Hpw|].
    now rewrite Hrun. }
  intros db1 db2 db3 db4 db5.
  assert (H1 : findUserByEmail db1 (toLowerCase email) = Some (setFailure 1 None user)).
  { subst db1. rewrite (Hstep t1 db user Hfind Hfree Hver Hact eq_refl).
    now rewrite Hzero. }
  assert (H2 : findUserByEmail db2 (toLowerCase email) = Some (setFailure 2 None user)).
  { subst db2. now rewrite (Hstep t2 db1 _ H1 eq_refl Hver Hact eq_refl). }
  assert (H3 : findUserByEmail db3 (toLowerCase email) = Some (setFailure 3 None user)).
  { subst db3. now rewrite (Hstep t3 db2 _ H2 eq_refl Hver Hact eq_refl). }
  assert (H4 : findUserByEmail db4 (toLowerCase email) = Some (setFailure 4 None user)).
  { subst db4. now rewrite (Hstep t4 db3 _ H3 eq_refl Hver Hact eq_refl). }
  assert (H5 : findUserByEmail db5 (toLowerCase email)
               = Some (setFailure 5 (Some (t5 + 15 * 60 * 1000)) user)).
  { subst db5. now rewrite (Hstep t5 db4 _ H4 eq_refl Hver Hact eq_refl). }
  split; [exact H4|]. split; [exact H5|].
  rewrite (login_while_locked compare isEmail JWT_SECRET REFRESH_TOKEN_SECRET
             email right code t6 db5
             (setFailure 5 (Some (t5 + 15 * 60 * 1000)) user)
             (t5 + 15 * 60 * 1000) He Hr H5 eq_refl ltac:(lia)).
  split; [reflexivity|]. split; [reflexivity|].
  destruct (login_right_password compare isEmail JWT_SECRET REFRESH_TOKEN_SECRET
              email right code t7 db5
              (setFailure 5 (Some (t5 + 15 * 60 * 1000)) user) He Hr H5
              (lockedAt_expired (setFailure 5 (Some (t5 + 15 * 60 * 1000)) user)
                                t7 (t5 + 15 * 60 * 1000) eq_refl ltac:(lia))
              Hver Hact Hright)
    as (response & db7 & Hrun & Hstatus & _ & _ & Hfind7).
  rewrite Hrun. split; assumption.
Qed.

(** C6, amended. A login request on an existing account that is not
    locked and not verified is answered with the needs-verification
    response (403, code EMAIL_NOT_VERIFIED) whatever password it carries:
    the e-mail check comes before the password comparison. The handler
    stores the freshly drawn code with an expiry 15 minutes from now and
    sends it to the address of the request. *)
Theorem login_unverified_check email code now db user :
  isEmail email = true ->
  findUserByEmail db (toLowerCase email) = Some user ->
  lockedAt user now = None ->
  u_emailVerified user = false ->
  exists db',
    (forall password,
        String.eqb password "" = false ->
        login email password code now db = (needsVerification, db'))
    /\ findUserByEmail db' (toLowerCase email)
       = Some (setCode code (now + 15 * 60 * 1000) user)
    /\ outbox db' = outbox db ++ [mkEmail email code (c_name (u_company user))].
Proof.
  intros He Hfind Hfree Hver.
  eexists. split; [|split].
  - intros password Hp. unfold Auth.login.
    rewrite (loginIssues_none isEmail email password He Hp), Hfind, Hfree, Hver.
    cbn [negb]. reflexivity.
  - apply (findUserByEmail_after_update db (toLowerCase email) user
             (setCode code (now + minutes15)));
      [reflexivity | exact Hfind].
  - reflexivity.
Qed.

(** C10. The response of a resend request is the same for every address,
    code, instant and store: in particular for an address with an account
    and for one without. A new code, expiring 15 minutes from now, is
    stored and sent exactly when the address is well-formed and belongs to
    an account that is not verified; in every other case the store is left
    as it was. *)
Theorem resendCode_anti_enumeration email code now db :
  (forall email' code' now' db',
      fst (resendCode email code now db) = fst (resendCode email' code' now' db'))
  /\
  (forall user,
      isEmail email = true ->
      findUserByEmail db (toLowerCase email) = Some user ->
      u_emailVerified user = false ->
      let db' := snd (resendCode email code now db) in
      findUserByEmail db' (toLowerCase email)
      = Some (setCode code (now + 15 * 60 * 1000) user)
      /\ outbox db' = outbox db ++ [mkEmail email code (c_name (u_company user))]
      /\ refreshTokens db' = refreshTokens db)
  /\
  (isEmail email = false
   \/ findUserByEmail db (toLowerCase email) = None
   \/ (exists user, findUserByEmail db (toLowerCase email) = Some user
                    /\ u_emailVerified user = true) ->
   snd (resendCode email code now db) = db).
Proof.
  split; [|split].
  - intros email' code' now' db'. unfold Auth.resendCode.
    destruct (isEmail email), (isEmail email'); cbn [negb];
      repeat match goal with
             | |- context [match ?x with _ => _ end] => destruct x
             end; reflexivity.
  - intros user He Hfind Hver db'. subst db'. unfold Auth.resendCode.
    rewrite He, Hfind, Hver. cbn [negb snd]. split; [|split; reflexivity].
    apply (findUserByEmail_after_update db (toLowerCase email) user
             (setCode code (now + minutes15)));
      [reflexivity | exact Hfind].
  - intros Hcase. unfold Auth.resendCode.
    destruct (isEmail email); cbn [negb]; [|reflexivity].
    destruct Hcase as [Hbad | [Hnone | (user & Hfind & Hver)]].
    + discriminate Hbad.
    + now rewrite Hnone.
    + now rewrite Hfind, Hver.
Qed.

End SessionClaims.

Section RefreshClaims.
Import Http Db Auth.

Variable compare : string -> string -> bool.
Variable isEmail : string -> bool.
Variable JWT_SECRET : string.
Variable REFRESH_TOKEN_SECRET : string.

Local Abbreviation login := (Auth.login compare isEmail JWT_SECRET REFRESH_TOKEN_SECRET).
Local Abbreviation refresh := (Auth.refresh JWT_SECRET REFRESH_TOKEN_SECRET).
Local Abbreviation auth := (Auth.auth JWT_SECRET).

Lemma optString_eqb_refl (o : option string) : optString_eqb o o = true.
Proof. destruct o; simpl; [apply String.eqb_refl | reflexivity]. Qed.

Lemma credential_eqb_refl (c : Jwt.Credential) : Jwt.credential_eqb c c = true.
Proof.
  destruct c as [raw | key claims iat exp]; simpl.
  - apply String.eqb_refl.
  - unfold Jwt.payload_eqb.
    now rewrite !String.eqb_refl, !optString_eqb_refl, !Z.eqb_refl.
Qed.

(** With the ids of the user table unique, the row of an id is the row
    that carries it. *)
Lemma find_by_unique_id (rows : list User) (user : User) :
  NoDup (map u_id rows) -> In user rows ->
  find (fun u => String.eqb (u_id u) (u_id user)) rows = Some user.
Proof.
  induction rows as [|u rows IH]; intros Hnodup Hin; [contradiction|].
  simpl in Hnodup. inversion Hnodup as [|? ? Hfresh Hrest]; subst.
  simpl. destruct (String.eqb (u_id u) (u_id user)) eqn:E.
  - destruct Hin as [-> | Hin]; [reflexivity|].
    apply String.eqb_eq in E. exfalso. apply Hfresh. rewrite E.
    now apply in_map.
  - destruct Hin as [-> | Hin]; [now rewrite String.eqb_refl in E|].
    now apply IH.
Qed.

Lemma findUserById_of_email db address user :
  NoDup (map u_id (users db)) ->
  findUserByEmail db address = Some user ->
  findUserById db (u_id user) = Some user.
Proof.
  intros Hnodup Hfind. apply find_by_unique_id; [exact Hnodup|].
  apply find_some in Hfind. tauto.
Qed.

Lemma findUserById_after_update db user f :
  (forall u, u_id (f u) = u_id u) ->
  findUserById db (u_id user) = Some user ->
  findUserById (with_users db (updateUserRows (u_id user) f (users db))) (u_id user)
  = Some (f user).
Proof.
  intros Hid Hfind. unfold findUserById, updateUserRows in *. simpl.
  rewrite find_map_stable.
  - rewrite Hfind. simpl. now rewrite String.eqb_refl.
  - intros u. destruct (String.eqb (u_id u) (u_id user)) eqn:E;
      [now rewrite Hid, E | now rewrite E].
Qed.

(** A row that satisfies the search is found at the end of the table at
    the latest. *)
Lemma find_app_last {A : Type} (P : A -> bool) (l : list A) (x : A) :
  P x = true -> exists y, find P (l ++ [x]) = Some y /\ P y = true.
Proof.
  intros HP. induction l as [|a l IH]; simpl.
  - rewrite HP. now exists x.
  - destruct (P a) eqn:E; [now exists a | exact IH].
Qed.

(** The shape of a successful login. *)
Lemma login_success_inv email password code now db response db' :
  login email password code now db = (response, db') ->
  status response = 200 ->
  exists user,
    findUserByEmail db (toLowerCase email) = Some user
    /\ u_emailVerified user = true /\ u_isActive user = true
    /\ let tokens := generateTokens JWT_SECRET REFRESH_TOKEN_SECRET
                       (u_id user) (u_role user) (u_companyId user) now in
       cookies response = [("accessToken", fst tokens); ("refreshToken", snd tokens)]
       /\ db' = with_users
                  (with_refreshTokens db
                     (refreshTokens db
                      ++ [mkRefreshToken (snd tokens) (u_id user) (now + days7) None]))
                  (updateUserRows (u_id user) (setLoggedIn now) (users db)).
Proof.
  unfold Auth.login. intros Hrun Hstatus.
  destruct (loginIssues isEmail email password);
    [|inversion Hrun; subst; discriminate Hstatus].
  destruct (findUserByEmail db (toLowerCase email)) as [user|] eqn:Hfind;
    [|inversion Hrun; subst; discriminate Hstatus].
  destruct (lockedAt user now);
    [inversion Hrun; subst; discriminate Hstatus|].
  destruct (u_emailVerified user) eqn:Hver; cbn [negb] in Hrun;
    [|inversion Hrun; subst; discriminate Hstatus].
  destruct (u_isActive user) eqn:Hact; cbn [negb] in Hrun;
    [|inversion Hrun; subst; discriminate Hstatus].
  destruct (compare password (u_password user)); cbn [negb] in Hrun;
    [|inversion Hrun; subst; discriminate Hstatus].
  inversion Hrun; subst. exists user. cbv zeta.
  repeat split; try assumption; reflexivity.
Qed.

(** After a logout no row of the user passes the search of the refresh
    handler. *)
Lemma no_live_token_after_revoke token userId now now' (rows : list RefreshToken) :
  find (isLiveTokenOf token userId now') (map (revoke userId now) rows) = None.
Proof.
  induction rows as [|r rows IH]; simpl; [reflexivity|].
  assert (Hdead : isLiveTokenOf token userId now' (revoke userId now r) = false).
  { unfold isLiveTokenOf, revoke.
    destruct (rt_revokedAt r) eqn:Hrev.
    - rewrite Hrev. now rewrite andb_false_r.
    - destruct (String.eqb (rt_userId r) userId) eqn:Huser; simpl.
      + now rewrite andb_false_r.
      + rewrite Huser. now rewrite andb_false_r. }
  now rewrite Hdead.
Qed.

Lemma not_expired (exp now : Z) :
  Jwt.seconds now < exp -> (exp <=? Jwt.seconds now) = false.
Proof. intros H. now apply Z.leb_gt. Qed.

(** The refresh handler on the row a login has just stored. *)
Lemma refresh_after_login db user t0 t1 :
  findUserById db (u_id user) = Some user ->
  Jwt.seconds t1 < Jwt.seconds t0 + 7 * 24 * 60 * 60 ->
  let tokens := generateTokens JWT_SECRET REFRESH_TOKEN_SECRET
                  (u_id user) (u_role user) (u_companyId user) t0 in
  let db1 :=
    with_users
      (with_refreshTokens db
         (refreshTokens db
          ++ [mkRefreshToken (snd tokens) (u_id user) (t0 + days7) None]))
      (updateUserRows (u_id user) (setLoggedIn t0) (users db)) in
  findUserById db1 (u_id user) = Some (setLoggedIn t0 user)
  /\ refresh (Some (snd tokens)) t1 db1
     = (mkResponse 200 true None None false []
          [("accessToken",
            Jwt.sign (Jwt.mkPayload (u_id user) (Some (u_role user))
                                    (Some (u_companyId user)) None)
                     JWT_SECRET (15 * 60) t1)] None,
        db1).
Proof.
  intros Hbyid Hfresh tokens db1.
  assert (Hrow : findUserById db1 (u_id user) = Some (setLoggedIn t0 user)).
  { subst db1.
    apply (findUserById_after_update (with_refreshTokens db _) user (setLoggedIn t0));
      [reflexivity | exact Hbyid]. }
  split; [exact Hrow|].
  set (claims := Jwt.mkPayload (u_id user) None None (Some "refresh")).
  set (token := Jwt.sign claims REFRESH_TOKEN_SECRET (7 * 24 * 60 * 60) t0).
  set (row := mkRefreshToken token (u_id user) (t0 + days7) None).
  assert (Hverify : Jwt.verify token REFRESH_TOKEN_SECRET t1 = inr claims).
  { unfold token, Jwt.sign, Jwt.verify. rewrite String.eqb_refl. cbn [negb].
    now rewrite (not_expired _ t1 Hfresh). }
  assert (Hlive : isLiveTokenOf token (u_id user) t1 row = true).
  { unfold isLiveTokenOf, row. cbn [rt_token rt_userId rt_revokedAt rt_expiresAt].
    rewrite credential_eqb_refl, String.eqb_refl. cbn [andb].
    apply Z.ltb_lt. unfold Jwt.seconds, days7 in *.
    Z.to_euclidean_division_equations. lia. }
  destruct (find_app_last (isLiveTokenOf token (u_id user) t1)
              (refreshTokens db) row Hlive) as (stored & Hstored & Hok).
  assert (Huser : rt_userId stored = u_id user).
  { unfold isLiveTokenOf in Hok.
    apply andb_prop in Hok as [Hok _]. apply andb_prop in Hok as [Hok _].
    apply andb_prop in Hok as [_ Hok]. now apply String.eqb_eq. }
  change (snd tokens) with token. unfold Auth.refresh.
  rewrite Hverify.
  change (Jwt.userId claims) with (u_id user).
  change (refreshTokens db1) with (refreshTokens db ++ [row]).
  rewrite Hstored, Huser, Hrow.
  reflexivity.
Qed.

(** The guard on the access credential a refresh has just issued. *)
Lemma auth_accepts_fresh_access db user t1 t2 :
  findUserById db (u_id user) = Some user ->
  u_isActive user = true -> u_emailVerified user = true ->
  Jwt.seconds t2 < Jwt.seconds t1 + 15 * 60 ->
  auth (Some (Jwt.sign (Jwt.mkPayload (u_id user) (Some (u_role user))
                                      (Some (u_companyId user)) None)
                       JWT_SECRET (15 * 60) t1))
       None t2 db
  = inr (mkIdentity (u_id user) (u_email user) (u_name user) (u_role user)
                    (u_companyId user)).
Proof.
  intros Hbyid Hact Hver Hfresh. unfold Auth.auth.
  cbn [Jwt.sign Jwt.verify]. rewrite String.eqb_refl. cbn [negb].
  rewrite (not_expired _ t2 Hfresh). cbn [Jwt.userId].
  now rewrite Hbyid, Hact, Hver.
Qed.

(** C7. (1) Round trip: after a successful login on a store whose user
    ids are unique, a refresh request carrying the refresh credential of
    the login, within its 7 days, answers 200 and sets a new access
    credential only; the store, and with it the stored refresh credential,
    is left as it was; the guard accepts that access credential within its
    15 minutes and attaches the identity of the user. (2) A logout stamps
    [revokedAt] on every row of the user that had none; from then on every
    refresh request carrying a credential of that user is answered 401 and
    changes nothing. (3) A refresh request whose credential is malformed,
    signed with another secret or expired is answered 401. *)
Theorem refresh_round_trip_and_logout :
  (forall email password code t0 db response db1 accessToken refreshToken t1 t2,
      NoDup (map u_id (users db)) ->
      login email password code t0 db = (response, db1) ->
      status response = 200 ->
      cookies response
      = [("accessToken", accessToken); ("refreshToken", refreshToken)] ->
      Jwt.seconds t1 < Jwt.seconds t0 + 7 * 24 * 60 * 60 ->
      Jwt.seconds t2 < Jwt.seconds t1 + 15 * 60 ->
      exists response' accessToken' user,
        refresh (Some refreshToken) t1 db1 = (response', db1)
        /\ status response' = 200
        /\ cookies response' = [("accessToken", accessToken')]
        /\ findUserByEmail db (toLowerCase email) = Some user
        /\ auth (Some accessToken') None t2 db1
           = inr (mkIdentity (u_id user) (u_email user) (u_name user)
                             (u_role user) (u_companyId user)))
  /\
  (forall caller now db,
      let db' := snd (logout caller now db) in
      (forall r,
          In r (refreshTokens db) ->
          rt_userId r = Http.id caller -> rt_revokedAt r = None ->
          In (mkRefreshToken (rt_token r) (rt_userId r) (rt_expiresAt r) (Some now))
             (refreshTokens db'))
      /\
      (forall r,
          In r (refreshTokens db') -> rt_userId r = Http.id caller ->
          rt_revokedAt r <> None)
      /\
      (forall token t,
          (forall claims,
              Jwt.verify token REFRESH_TOKEN_SECRET t = inr claims ->
              Jwt.userId claims = Http.id caller) ->
          exists message,
            refresh (Some token) t db' = (failure 401 (Text message), db')
            /\ (message = "Token invalide"
                \/ message = "Token invalide ou expiré")))
  /\
  (forall token t db err,
      Jwt.verify token REFRESH_TOKEN_SECRET t = inl err ->
      refresh (Some token) t db = (failure 401 (Text "Token invalide"), db)).
Proof.
  split; [|split].
  - intros email password code t0 db response db1 accessToken refreshToken t1 t2
           Hnodup Hrun Hstatus Hcookies Ht1 Ht2.
    destruct (login_success_inv email password code t0 db response db1 Hrun Hstatus)
      as (user & Hfind & Hver & Hact & Hck & Hdb1).
    cbv zeta in Hck, Hdb1. rewrite Hck in Hcookies.
    injection Hcookies as Haccess Hrefresh. subst accessToken refreshToken.
    assert (Hbyid := findUserById_of_email db (toLowerCase email) user Hnodup Hfind).
    destruct (refresh_after_login db user t0 t1 Hbyid Ht1) as [Hrow Hrefresh].
    cbv zeta in Hrow, Hrefresh. rewrite <- Hdb1 in Hrow, Hrefresh.
    do 2 eexists. exists user.
    split; [exact Hrefresh|]. split; [reflexivity|]. split; [reflexivity|].
    split; [exact Hfind|].
    apply (auth_accepts_fresh_access db1 (setLoggedIn t0 user) t1 t2);
      [exact Hrow | exact Hact | exact Hver | exact Ht2].
  - intros caller now db db'. split; [|split].
    + intros r Hin Huser Hlive. subst db'. cbn [logout snd refreshTokens with_refreshTokens].
      apply in_map_iff. exists r. split; [|exact Hin].
      unfold revoke. rewrite Hlive, Huser. now rewrite String.eqb_refl.
    + intros r Hin Huser. subst db'.
      cbn [logout snd refreshTokens with_refreshTokens] in Hin.
      apply in_map_iff in Hin as (r0 & <- & _). unfold revoke in *.
      destruct (rt_revokedAt r0) eqn:Hrev; [now rewrite Hrev|].
      destruct (String.eqb (rt_userId r0) (Http.id caller)) eqn:E; [discriminate|].
      apply String.eqb_neq in E. contradiction.
    + intros token t Hmine. unfold Auth.refresh.
      destruct (Jwt.verify token REFRESH_TOKEN_SECRET t) as [err | claims] eqn:Hverify.
      * eexists. split; [reflexivity | now left].
      * rewrite (Hmine claims eq_refl). subst db'.
        cbn [logout snd refreshTokens with_refreshTokens].
        rewrite no_live_token_after_revoke. eexists. split; [reflexivity | now right].
  - intros token t db err Hverify. unfold Auth.refresh. now rewrite Hverify.
Qed.

End RefreshClaims.

(** ** The session claims on the demonstration accounts *)
Section SessionExamples.
Import Http Db Auth Fixtures.

Local Abbreviation login := (Auth.login plainCompare hasAt "jwt-secret" "refresh-secret").
Local Abbreviation refresh := (Auth.refresh "jwt-secret" "refresh-secret").
Local Abbreviation auth := (Auth.auth "jwt-secret").
Local Abbreviation resendCode := (Auth.resendCode hasAt).


(** C6, as stated: on an unverified account a wrong password is answered
    with the generic incorrect-credentials failure, and the
    needs-verification response is kept for the right password. The
    handler answers needs-verification to the wrong password "wrong" on
    the unverified account of the demonstration store. *)
Lemma login_unverified_counterexample :
  ~ (forall compare isEmail JWT_SECRET REFRESH_TOKEN_SECRET
            email password code now db user,
        isEmail email = true -> String.eqb password "" = false ->
        findUserByEmail db (toLowerCase email) = Some user ->
        u_emailVerified user = false ->
        let response :=
          fst (Auth.login compare isEmail JWT_SECRET REFRESH_TOKEN_SECRET
                          email password code now db) in
        (response = needsVerification -> compare password (u_password user) = true)
        /\ (compare password (u_password user) = false ->
            response = failure 401 incorrectCredentials)).
Proof.
  intros Hclaim.
  destruct (Hclaim plainCompare hasAt "jwt-secret" "refresh-secret"
                   "nouveau@emergence-transit.com" "wrong" "654321" 1000
                   accounts newcomer eq_refl eq_refl eq_refl eq_refl)
    as [Honly _].
  specialize (Honly eq_refl). vm_compute in Honly. discriminate Honly.
Qed.

(** The unverified newcomer logs in at instant 1000, with the right or
    with a wrong password: needs-verification, and the code 654321 is
    stored until 901000 and sent. *)
Lemma login_unverified_check_witness :
  hasAt "nouveau@emergence-transit.com" = true
  /\ findUserByEmail accounts (toLowerCase "nouveau@emergence-transit.com")
     = Some newcomer
  /\ lockedAt newcomer 1000 = None
  /\ u_emailVerified newcomer = false
  /\ fst (login "nouveau@emergence-transit.com" "Secret123" "654321" 1000 accounts)
     = needsVerification
  /\ fst (login "nouveau@emergence-transit.com" "wrong" "654321" 1000 accounts)
     = needsVerification.
Proof.
  split; [reflexivity|]. split; [reflexivity|].
  split; [reflexivity|]. split; [reflexivity|].
  destruct (login_unverified_check plainCompare hasAt "jwt-secret" "refresh-secret"
              "nouveau@emergence-transit.com" "654321" 1000 accounts newcomer
              eq_refl eq_refl eq_refl eq_refl) as (db' & Hany & _).
  rewrite (Hany "Secret123" eq_refl), (Hany "wrong" eq_refl).
  split; reflexivity.
Defined.

(** A resend request for the newcomer and one for an address without an
    account: the same response; only the first changes the store. *)
Lemma resendCode_anti_enumeration_witness :
  hasAt "nouveau@emergence-transit.com" = true
  /\ findUserByEmail accounts "nobody@example.org" = None
  /\ fst (resendCode "nouveau@emergence-transit.com" "111111" 5 accounts)
     = fst (resendCode "nobody@example.org" "222222" 6 accounts)
  /\ snd (resendCode "nobody@example.org" "222222" 6 accounts) = accounts
  /\ outbox (snd (resendCode "nouveau@emergence-transit.com" "111111" 5 accounts))
     = [mkEmail "nouveau@emergence-transit.com" "111111" "EMERGENCE TRANSIT GUINEE"].
Proof.
  split; [reflexivity|]. split; [reflexivity|].
  destruct (resendCode_anti_enumeration hasAt
              "nouveau@emergence-transit.com" "111111" 5 accounts)
    as (Hsame & Hissue & _).
  destruct (resendCode_anti_enumeration hasAt "nobody@example.org" "222222" 6 accounts)
    as (_ & _ & Hquiet).
  split; [apply Hsame|]. split.
  - apply Hquiet. right. left. reflexivity.
  - destruct (Hissue newcomer eq_refl eq_refl eq_refl) as (_ & Hout & _).
    exact Hout.
Defined.

Lemma accounts_ids_unique : NoDup (map u_id (users accounts)).
Proof.
  repeat constructor; simpl; intuition discriminate.
Defined.

(** The director logs in at instant 1000000, refreshes at 2000000 and calls
    a guarded route at 2500000; then logs out at 3000000 and tries to
    refresh again at 3000001. *)
Lemma refresh_round_trip_and_logout_witness :
  NoDup (map u_id (users accounts))
  /\ status (fst adminLogin) = 200
  /\ cookies (fst adminLogin)
     = [("accessToken", fst adminTokens); ("refreshToken", snd adminTokens)]
  /\ (exists response' accessToken' user,
         refresh (Some (snd adminTokens)) 2000000 (snd adminLogin)
         = (response', snd adminLogin)
         /\ status response' = 200
         /\ cookies response' = [("accessToken", accessToken')]
         /\ findUserByEmail accounts (toLowerCase "admin@emergence-transit.com")
            = Some user
         /\ auth (Some accessToken') None 2500000 (snd adminLogin)
            = inr (mkIdentity (u_id user) (u_email user) (u_name user)
                              (u_role user) (u_companyId user)))
  /\ status (fst (refresh (Some (snd adminTokens)) 3000001
                          (snd (logout adminIdentity 3000000 (snd adminLogin)))))
     = 401.
Proof.
  destruct (refresh_round_trip_and_logout plainCompare hasAt
              "jwt-secret" "refresh-secret") as (Hround & Hlogout & _).
  split; [exact accounts_ids_unique|].
  split; [reflexivity|]. split; [reflexivity|]. split.
  - exact (Hround "admin@emergence-transit.com" "Admin123!" "000000" 1000000
                  accounts (fst adminLogin) (snd adminLogin)
                  (fst adminTokens) (snd adminTokens) 2000000 2500000
                  accounts_ids_unique eq_refl eq_refl eq_refl eq_refl eq_refl).
  - destruct (Hlogout adminIdentity 3000000 (snd adminLogin)) as (_ & _ & Hdead).
    destruct (Hdead (snd adminTokens) 3000001) as (message & Hrun & _).
    + intros claims Hverify. vm_compute in Hverify.
      injection Hverify as <-. reflexivity.
    + cbv zeta in Hrun. rewrite Hrun. reflexivity.
Defined.

End SessionExamples.

(** ** The customs duty calculator *)
Section CustomsClaims.
Import Http Customs.

(** [Math.round] rounds half up: on a double [x = a / k] that is not
    stored as an integer ([a] the signed mantissa, [k = 2^(-e)]), the
    integer [n] it returns satisfies [n - 1/2 <= x < n + 1/2]. *)
Lemma mathRound_half_up (s : bool) (m : positive) (e : Z) :
  e < 0 ->
  let a := cond_Zopp s (Zpos m) in
  let k := 2 ^ (- e) in
  exists n,
    mathRound (S754_finite s m e)
    = match n with Z0 => S754_zero s | _ => ofInteger n end
    /\ (2 * n - 1) * k <= 2 * a < (2 * n + 1) * k.
Proof.
  intros He a k.
  assert (Hk : 0 < k) by (apply Z.pow_pos_nonneg; lia).
  assert (H2k : 2 ^ (1 - e) = 2 * k).
  { unfold k. replace (1 - e) with (Z.succ (- e)) by lia.
    rewrite Z.pow_succ_r by lia. reflexivity. }
  exists ((2 * a + k) / (2 * k)). split.
  - unfold mathRound. apply Z.leb_gt in He. rewrite He.
    fold a. fold k. rewrite H2k. reflexivity.
  - pose proof (Z.div_mod (2 * a + k) (2 * k) ltac:(lia)) as Hdm.
    pose proof (Z.mod_pos_bound (2 * a + k) (2 * k) ltac:(lia)) as Hmod.
    nia.
Qed.

(** C4, as stated, ends on a worked example: CIF 18240 USD at rate 8646
    yields DD close to 55,197,883 and TVA close to 38,890,851. Reading
    "close to" as "within one percent", the handler contradicts the second
    figure: its TVA at these inputs is 38,321,839, which is 569,012 below
    (the figures of the seed data were computed at another rate and with
    a wider TVA base). *)
Lemma customs_worked_example_counterexample :
  ~ (exists calc,
        calculateCustoms "07031000" (ofInteger 18240) (Some "USD") = okData 200 calc
        /\ exchangeRate calc = ofInteger 8646
        /\ (exists d, integerOf (amount (dd (duties calc))) = Some d
                      /\ 100 * Z.abs (d - 55197883) <= 55197883)
        /\ (exists t, integerOf (amount (tva (duties calc))) = Some t
                      /\ 100 * Z.abs (t - 38890851) <= 38890851)).
Proof.
  intros (calc & Hrun & _ & _ & (t & Ht & Hclose)).
  vm_compute in Hrun. injection Hrun as <-.
  vm_compute in Ht. injection Ht as <-.
  vm_compute in Hclose. now apply Hclose.
Qed.

(** C4, amended. For every request that passes the schema (a CIF value
    above zero, a code of four characters or more) in USD, EUR or GNF, the
    calculator answers 200 with: the static rate of the currency (8646,
    9400, and 1 for GNF); convertedValue = value x rate;
    DD = round(convertedValue x 0.35), RTL = round(convertedValue x 0.02),
    PC = round(convertedValue x 0.005), CA = round(convertedValue x 0.0025);
    TVA = round((convertedValue + DD) x 0.18), charged on value plus DD;
    BFU = 500000 above 100,000,000, else 350000 above 50,000,000, else
    200000; totalDuties = DD + RTL + PC + CA + TVA + BFU. The products and
    sums are those of doubles and every rounding is [Math.round], which
    rounds half up. In particular CIF 18240 USD at rate 8646 converts to
    157,703,040 and yields DD = 55,196,064 (within 0.01 percent of
    55,197,883), TVA = 38,321,839 and a total of 98,354,737. *)
Theorem customs_duty_formula :
  (forall hs value currency,
      (4 <= String.length hs)%nat ->
      ltD (S754_zero false) value = true ->
      In currency ["USD"; "EUR"; "GNF"] ->
      exists calc,
        calculateCustoms hs value (Some currency) = okData 200 calc
        /\ (currency = "USD" -> exchangeRate calc = ofInteger 8646)
        /\ (currency = "EUR" -> exchangeRate calc = ofInteger 9400)
        /\ (currency = "GNF" -> exchangeRate calc = ofInteger 1)
        /\ cifValueGnf calc = mulD value (exchangeRate calc)
        /\ let converted := cifValueGnf calc in
           let line := fun f : Duties -> Line => amount (f (duties calc)) in
           line dd = mathRound (mulD converted (decimal 35 2))
           /\ line rtl = mathRound (mulD converted (decimal 2 2))
           /\ line pc = mathRound (mulD converted (decimal 5 3))
           /\ line ca = mathRound (mulD converted (decimal 25 4))
           /\ base (tva (duties calc)) = Some (addD converted (line dd))
           /\ line tva = mathRound (mulD (addD converted (line dd)) (decimal 18 2))
           /\ line bfu
              = (if ltD (ofInteger 100000000) converted then ofInteger 500000
                 else if ltD (ofInteger 50000000) converted then ofInteger 350000
                 else ofInteger 200000)
           /\ totalDuties calc
              = addD (addD (addD (addD (addD (line dd) (line rtl)) (line pc))
                                 (line ca)) (line tva)) (line bfu))
  /\
  (forall s m e,
      e < 0 ->
      exists n,
        mathRound (S754_finite s m e)
        = match n with Z0 => S754_zero s | _ => ofInteger n end
        /\ (2 * n - 1) * 2 ^ (- e) <= 2 * cond_Zopp s (Zpos m)
           < (2 * n + 1) * 2 ^ (- e))
  /\
  (exists calc,
      calculateCustoms "07031000" (ofInteger 18240) (Some "USD") = okData 200 calc
      /\ exchangeRate calc = ofInteger 8646
      /\ integerOf (cifValueGnf calc) = Some 157703040
      /\ integerOf (amount (dd (duties calc))) = Some 55196064
      /\ 10000 * Z.abs (55196064 - 55197883) <= 55197883
      /\ integerOf (amount (tva (duties calc))) = Some 38321839
      /\ integerOf (totalDuties calc) = Some 98354737).
Proof.
  split; [|split].
  - intros hs value currency Hhs Hvalue Hcurrency.
    unfold calculateCustoms, calculateSchemaAccepts.
    apply Nat.leb_le in Hhs. rewrite Hhs, Hvalue. cbn [andb negb orElse].
    eexists. split; [reflexivity|].
    cbn [exchangeRate cifValueGnf duties totalDuties dd rtl pc ca tva bfu
         amount base].
    split; [intros ->; reflexivity|].
    split; [intros ->; reflexivity|].
    split; [intros ->; reflexivity|].
    repeat split.
  - intros s m e He. exact (mathRound_half_up s m e He).
  - eexists. split; [vm_compute; reflexivity|].
    repeat split; vm_compute; congruence.
Qed.

(** The onions of the seed data: 18240 USD under code 07031000. *)
Lemma customs_duty_formula_witness :
  (4 <= String.length "07031000")%nat
  /\ ltD (S754_zero false) (ofInteger 18240) = true
  /\ In "USD" ["USD"; "EUR"; "GNF"]
  /\ exists calc,
       calculateCustoms "07031000" (ofInteger 18240) (Some "USD") = okData 200 calc
       /\ exchangeRate calc = ofInteger 8646
       /\ amount (tva (duties calc))
          = mathRound (mulD (addD (cifValueGnf calc) (amount (dd (duties calc))))
                            (decimal 18 2)).
Proof.
  assert (Hhs : (4 <= String.length "07031000")%nat) by (simpl; lia).
  assert (Hcur : In "USD" ["USD"; "EUR"; "GNF"]) by (left; reflexivity).
  split; [exact Hhs|]. split; [reflexivity|]. split; [exact Hcur|].
  destruct customs_duty_formula as (Hformula & _ & _).
  destruct (Hformula "07031000" (ofInteger 18240) "USD" Hhs eq_refl Hcur)
    as (calc & Hrun & Husd & _ & _ & _ & Hlines).
  cbv zeta in Hlines.
  destruct Hlines as (_ & _ & _ & _ & _ & Htva & _).
  exists calc. split; [exact Hrun|]. split; [exact (Husd eq_refl) | exact Htva].
Defined.

End CustomsClaims.

(** ** The balance guard of the pay handler

    What the guard does achieve, on a ledger whose expense ids are unique:
    a pay request that succeeds takes the amount of a disbursement off the
    balance of its shipment and never drives it below zero; a create
    request never lowers a balance. *)
Section BalanceGuard.
Import Http Db Finance.

Lemma specBalance_cons (e : Expense) (es : list Expense) :
  specBalance (e :: es) = contribution e + specBalance es.
Proof.
  unfold specBalance, contribution. cbn [filter].
  destruct (isProvision e), (isPaidDisbursement e);
    rewrite ?sumAmounts_cons; lia.
Qed.

Lemma specBalance_app (es es' : list Expense) :
  specBalance (es ++ es') = specBalance es + specBalance es'.
Proof.
  induction es as [|e es IH]; [reflexivity|].
  cbn [app]. rewrite !specBalance_cons, IH. lia.
Qed.

Lemma update_absent_id (id : string) (f : Expense -> Expense) (rows : list Expense) :
  ~ In id (map e_id rows) -> updateExpenseRows id f rows = rows.
Proof.
  induction rows as [|e rows IH]; intros Habsent; [reflexivity|].
  cbn [updateExpenseRows map] in *.
  destruct (String.eqb (e_id e) id) eqn:E.
  - apply String.eqb_eq in E. exfalso. apply Habsent. now left.
  - f_equal. apply IH. intros Hin. apply Habsent. now right.
Qed.

Lemma markPaid_rows_balance (rows : list Expense) expense now shipmentId :
  NoDup (map e_id rows) -> In expense rows -> e_paid expense = false ->
  specBalance (filter (ofShipment shipmentId)
                      (updateExpenseRows (e_id expense) (markPaid now) rows))
  = specBalance (filter (ofShipment shipmentId) rows)
    - (if ofShipment shipmentId expense
       then match e_type expense with
            | DISBURSEMENT => e_amount expense
            | PROVISION => 0
            end
       else 0).
Proof.
  induction rows as [|e rows IH]; intros Hnodup Hin Hunpaid; [contradiction|].
  cbn [map] in Hnodup. inversion Hnodup as [|? ? Hfresh Hrest]; subst.
  cbn [updateExpenseRows map]. fold (updateExpenseRows (e_id expense) (markPaid now) rows).
  destruct (String.eqb (e_id e) (e_id expense)) eqn:E.
  - apply String.eqb_eq in E.
    assert (e = expense) as ->.
    { destruct Hin as [-> | Hin]; [reflexivity|].
      exfalso. apply Hfresh. rewrite E. now apply in_map. }
    rewrite (update_absent_id _ _ rows Hfresh). cbn [filter].
    change (ofShipment shipmentId (markPaid now expense))
      with (ofShipment shipmentId expense).
    destruct (ofShipment shipmentId expense); [|lia].
    rewrite !specBalance_cons.
    unfold contribution, isProvision, isPaidDisbursement. cbn [markPaid e_type e_paid e_amount].
    rewrite Hunpaid. destruct (e_type expense); cbn; lia.
  - assert (Hin' : In expense rows).
    { destruct Hin as [-> | Hin]; [now rewrite String.eqb_refl in E | exact Hin]. }
    cbn [filter]. destruct (ofShipment shipmentId e).
    + rewrite !specBalance_cons, (IH Hrest Hin' Hunpaid). lia.
    + exact (IH Hrest Hin' Hunpaid).
Qed.


(** A create request, the new row unpaid as the column default has it,
    never lowers the balance of any shipment, whatever its answer. *)
Lemma createExpense_never_lowers_balance caller body newId db response db' shipmentId :
  createExpense false caller body newId db = (response, db') ->
  specBalance (expensesOf db shipmentId) <= specBalance (expensesOf db' shipmentId).
Proof.
  unfold createExpense. intros Hrun.
  destruct (@requireAccountant Expense caller); [inversion Hrun; subst; lia|].
  destruct (createExpenseIssues body) eqn:Hissues; [|inversion Hrun; subst; lia].
  destruct (findShipment db (b_shipmentId body) (companyId caller));
    [|inversion Hrun; subst; lia].
  inversion Hrun; subst. unfold expensesOf. cbn [expenses with_expenses].
  rewrite filter_app, specBalance_app. cbn [filter].
  match goal with |- context [if ?c then _ else _] => destruct c end;
    [|unfold specBalance; simpl; lia].
  rewrite specBalance_cons.
  unfold contribution, isProvision, isPaidDisbursement. cbn [e_type e_paid e_amount].
  assert (Hpos : 0 < b_amount body).
  { unfold createExpenseIssues in Hissues.
    destruct (b_amount body <=? 0) eqn:E; [|now apply Z.leb_gt in E].
    destruct (String.eqb (b_description body) ""); discriminate Hissues. }
  destruct (b_type body); cbn; unfold specBalance; simpl; lia.
Qed.

(** The update handler reaches the same row without the guard: on an
    unpaid disbursement that the balance does not cover, the pay request
    is refused while the patch [{ paid: true }] is applied and leaves the
    balance of the shipment below zero. *)
Lemma updateExpense_bypasses_guard caller id now db expense :
  NoDup (map e_id (expenses db)) ->
  includes ["DIRECTOR"; "ACCOUNTANT"] (role caller) = true ->
  findExpense db id (companyId caller) = Some expense ->
  e_paid expense = false ->
  e_type expense = DISBURSEMENT ->
  specBalance (expensesOf db (e_shipmentId expense)) < e_amount expense ->
  status (fst (payExpense caller id now db)) = 400
  /\ status (fst (updateExpense caller id Fixtures.patchPaid now db)) = 200
  /\ specBalance (expensesOf (snd (updateExpense caller id Fixtures.patchPaid now db))
                             (e_shipmentId expense))
     = specBalance (expensesOf db (e_shipmentId expense)) - e_amount expense
  /\ specBalance (expensesOf (snd (updateExpense caller id Fixtures.patchPaid now db))
                             (e_shipmentId expense)) < 0.
Proof.
  intros Hnodup Hrole Hfind Hunpaid Htype Hlow.
  assert (Hin : In expense (expenses db)).
  { unfold findExpense in Hfind. apply find_some in Hfind. tauto. }
  assert (Hpay : status (fst (payExpense caller id now db)) = 400).
  { unfold payExpense.
    rewrite (accountant_may_pass caller Hrole), Hfind, Hunpaid, Htype.
    rewrite currentBalance_is_specBalance.
    apply Z.ltb_lt in Hlow. now rewrite Hlow. }
  assert (Hrows :
            updateExpenseRows (e_id expense)
              (applyPatch (set_paidAt Fixtures.patchPaid now)) (expenses db)
            = updateExpenseRows (e_id expense) (markPaid now) (expenses db)).
  { unfold updateExpenseRows. apply map_ext. intros e.
    destruct (String.eqb (e_id e) (e_id expense)); reflexivity. }
  unfold updateExpense.
  rewrite (accountant_may_pass caller Hrole), Hfind, Hunpaid.
  cbn [paidIsTrue Fixtures.patchPaid p_paid negb andb fst snd status okData].
  rewrite Hrows. unfold expensesOf in *. cbn [expenses with_expenses].
  rewrite (markPaid_rows_balance (expenses db) expense now (e_shipmentId expense)
             Hnodup Hin Hunpaid).
  assert (Hown : ofShipment (e_shipmentId expense) expense = true)
    by apply String.eqb_refl.
  rewrite Hown, Htype. repeat split; try assumption; lia.
Qed.

End BalanceGuard.

(* ================================================================== *)
(** * Part III: further properties of the handlers                     *)
(* ================================================================== *)

(** ** The ledger: who may write, and what a write touches *)
Section LedgerAccess.
Import Http Db Finance Fixtures.

Lemma accountant_may_not_pass {A : Type} (caller : Identity) :
  includes ["DIRECTOR"; "ACCOUNTANT"] (role caller) = false ->
  @requireAccountant A caller = Some (failure 403 (Text "Accès non autorisé")).
Proof. intros H. unfold requireAccountant, requireRole. now rewrite H. Qed.

(** A caller who is neither director nor accountant cannot write to the
    ledger: each of the four write requests is answered 403, and any
    sequence of them leaves the store as it was. *)
Theorem ledger_is_closed_to_other_roles defaultPaid caller now db :
  includes ["DIRECTOR"; "ACCOUNTANT"] (role caller) = false ->
  (forall body newId,
      status (fst (createExpense defaultPaid caller body newId db)) = 403)
  /\ (forall id body, status (fst (updateExpense caller id body now db)) = 403)
  /\ (forall id, status (fst (payExpense caller id now db)) = 403)
  /\ (forall id, status (fst (deleteExpense caller id db)) = 403)
  /\ (forall ops, run defaultPaid caller now db ops = db).
Proof.
  intros Hrole.
  assert (Hdenied := fun A => @accountant_may_not_pass A caller Hrole).
  repeat split; intros.
  - unfold createExpense. now rewrite Hdenied.
  - unfold updateExpense. now rewrite Hdenied.
  - unfold payExpense. now rewrite Hdenied.
  - unfold deleteExpense. now rewrite Hdenied.
  - unfold run. induction ops as [|op ops IH]; [reflexivity|].
    cbn [fold_left].
    assert (Hstep : step defaultPaid caller now db op = db).
    { destruct op; cbn [step];
        unfold createExpense, updateExpense, payExpense, deleteExpense;
        now rewrite Hdenied. }
    now rewrite Hstep.
Qed.

(** The agent of the company tries to book, mark paid and delete. *)
Lemma ledger_is_closed_to_other_roles_witness :
  includes ["DIRECTOR"; "ACCOUNTANT"] (role agent) = false
  /\ run false agent 9 smallLedger
         [CreateExpense (provisionOf 5) "e3"; UpdateExpense "e2" patchPaid;
          PayExpense "e2"; DeleteExpense "e1"]
     = smallLedger.
Proof.
  split; [reflexivity|].
  destruct (ledger_is_closed_to_other_roles false agent 9 smallLedger eq_refl)
    as (_ & _ & _ & _ & Hrun).
  apply Hrun.
Defined.

(** The rows of a table that a rewrite of one id leaves alone. *)
Lemma filter_map_untouched {A : Type} (P : A -> bool) (g : A -> A) (l : list A) :
  (forall x, In x l -> P (g x) = P x /\ (P x = true -> g x = x)) ->
  filter P (map g l) = filter P l.
Proof.
  induction l as [|x l IH]; intros H; [reflexivity|].
  cbn [map filter].
  destruct (H x (or_introl eq_refl)) as [Hsame Hfix].
  rewrite Hsame, IH by (intros y Hy; apply H; now right).
  destruct (P x) eqn:E; [now rewrite (Hfix eq_refl) | reflexivity].
Qed.

Lemma filter_filter_untouched {A : Type} (P Q : A -> bool) (l : list A) :
  (forall x, In x l -> P x = true -> Q x = true) ->
  filter P (filter Q l) = filter P l.
Proof.
  induction l as [|x l IH]; intros H; [reflexivity|].
  cbn [filter]. rewrite <- IH by (intros y Hy; apply H; now right).
  destruct (Q x) eqn:EQ; cbn [filter]; [reflexivity|].
  destruct (P x) eqn:EP; [|reflexivity].
  rewrite (H x (or_introl eq_refl) EP) in EQ. discriminate EQ.
Qed.

(** With unique ids, the rows that carry the id of a row are that row. *)
Lemma unique_id_row (rows : list Expense) (expense e : Expense) :
  NoDup (map e_id rows) -> In expense rows -> In e rows ->
  e_id e = e_id expense -> e = expense.
Proof.
  induction rows as [|x rows IH]; intros Hnodup Hin He Hid; [contradiction|].
  cbn [map] in Hnodup. inversion Hnodup as [|? ? Hfresh Hrest]; subst.
  destruct Hin as [-> | Hin], He as [-> | He]; try reflexivity.
  - exfalso. apply Hfresh. rewrite <- Hid. now apply in_map.
  - exfalso. apply Hfresh. rewrite Hid. now apply in_map.
  - now apply IH.
Qed.

(** The rows of the ledger that belong to shipments of other companies. *)
Lemma findExpense_own db id companyId expense :
  findExpense db id companyId = Some expense ->
  In expense (expenses db)
  /\ e_id expense = id
  /\ shipmentOfCompany db (e_shipmentId expense) companyId = true.
Proof.
  unfold findExpense. intros H. apply find_some in H as [Hin Hok].
  apply andb_prop in Hok as [Hid Hown]. apply String.eqb_eq in Hid. tauto.
Qed.

(** Tenant isolation of the ledger writes that take no free-form body:
    on a ledger with unique expense ids, a create, pay or delete request
    never changes, adds or removes an expense row of a shipment that is
    not of the caller's company. *)
Theorem ledger_writes_stay_in_company defaultPaid caller now db :
  NoDup (map e_id (expenses db)) ->
  let foreign := fun e =>
    negb (shipmentOfCompany db (e_shipmentId e) (companyId caller)) in
  (forall body newId,
      filter foreign (expenses (snd (createExpense defaultPaid caller body newId db)))
      = filter foreign (expenses db))
  /\ (forall id,
         filter foreign (expenses (snd (payExpense caller id now db)))
         = filter foreign (expenses db))
  /\ (forall id,
         filter foreign (expenses (snd (deleteExpense caller id db)))
         = filter foreign (expenses db)).
Proof.
  intros Hnodup foreign. split; [|split].
  - intros body newId. unfold createExpense.
    destruct (@requireAccountant Expense caller); [reflexivity|].
    destruct (createExpenseIssues body); [|reflexivity].
    destruct (findShipment db (b_shipmentId body) (companyId caller))
      as [shipment|] eqn:Hship; [|reflexivity].
    cbn [snd expenses with_expenses]. rewrite filter_app. cbn [filter].
    assert (Hown : foreign
                     (mkExpense newId (b_shipmentId body) (b_type body)
                        (b_category body) (b_description body) (b_amount body)
                        (b_quantity body) (b_unitPrice body) (b_reference body)
                        (b_supplier body) defaultPaid None) = false).
    { unfold foreign, shipmentOfCompany. cbn [e_shipmentId].
      unfold findShipment in Hship. apply find_some in Hship as [Hin Hok].
      apply negb_false_iff, existsb_exists. now exists shipment. }
    rewrite Hown. apply app_nil_r.
  - intros id. unfold payExpense.
    destruct (@requireAccountant Expense caller); [reflexivity|].
    destruct (findExpense db id (companyId caller)) as [expense|] eqn:Hfind;
      [|reflexivity].
    destruct (findExpense_own db id (companyId caller) expense Hfind)
      as (Hin & _ & Hown).
    assert (Hdone :
              filter foreign (updateExpenseRows (e_id expense) (markPaid now)
                                                (expenses db))
              = filter foreign (expenses db)).
    { apply filter_map_untouched. intros e He.
      destruct (String.eqb (e_id e) (e_id expense)) eqn:E; [|now split].
      apply String.eqb_eq in E.
      rewrite (unique_id_row (expenses db) expense e Hnodup Hin He E).
      unfold foreign. cbn [markPaid e_shipmentId]. rewrite Hown. now split. }
    destruct (e_paid expense); [reflexivity|].
    destruct (e_type expense); [exact Hdone|].
    destruct (currentBalance (expensesOf db (e_shipmentId expense))
              <? e_amount expense); [reflexivity | exact Hdone].
  - intros id. unfold deleteExpense.
    destruct (@requireAccountant Expense caller); [reflexivity|].
    destruct (findExpense db id (companyId caller)) as [expense|] eqn:Hfind;
      [|reflexivity].
    destruct (findExpense_own db id (companyId caller) expense Hfind)
      as (Hin & _ & Hown).
    destruct (e_paid expense); [reflexivity|].
    cbn [snd expenses with_expenses]. unfold deleteExpenseRows.
    apply filter_filter_untouched. intros e He Hforeign.
    destruct (String.eqb (e_id e) (e_id expense)) eqn:E; [|reflexivity].
    apply String.eqb_eq in E.
    rewrite (unique_id_row (expenses db) expense e Hnodup Hin He E) in Hforeign.
    unfold foreign in Hforeign. rewrite Hown in Hforeign. discriminate Hforeign.
Qed.

End LedgerAccess.

Section LedgerAccessExamples.
Import Http Db Finance Fixtures.

Lemma sharedLedger_ids_unique : NoDup (map e_id (expenses sharedLedger)).
Proof. repeat constructor; simpl; intuition discriminate. Defined.

(** The accountant of company c1 pays and deletes in the shared ledger,
    also aiming at the row f1 of company c2: that row stays as it is. *)
Lemma ledger_writes_stay_in_company_witness :
  NoDup (map e_id (expenses sharedLedger))
  /\ (forall id,
         filter (fun e => negb (shipmentOfCompany sharedLedger (e_shipmentId e) "c1"))
                (expenses (snd (payExpense accountant id 9 sharedLedger)))
         = [mkExpense "f1" "s2" PROVISION "AUTRE" "Avance" 500
                      None None None None false None])
  /\ status (fst (deleteExpense accountant "f1" sharedLedger)) = 404.
Proof.
  split; [exact sharedLedger_ids_unique|]. split; [|reflexivity].
  intros id.
  destruct (ledger_writes_stay_in_company false accountant 9 sharedLedger
              sharedLedger_ids_unique) as (_ & Hpay & _).
  exact (Hpay id).
Defined.

Lemma smallLedger_ids_unique : NoDup (map e_id (expenses smallLedger)).
Proof. repeat constructor; simpl; intuition discriminate. Defined.


(** Booking a disbursement of 150 on the small ledger. *)
Lemma createExpense_never_lowers_balance_witness :
  status (fst (createExpense false accountant (disbursementOf 150) "e9" smallLedger))
  = 201
  /\ specBalance (expensesOf smallLedger "s1")
     <= specBalance
          (expensesOf
             (snd (createExpense false accountant (disbursementOf 150) "e9"
                                 smallLedger)) "s1").
Proof.
  split; [reflexivity|].
  exact (createExpense_never_lowers_balance accountant (disbursementOf 150) "e9"
           smallLedger _ _ "s1" eq_refl).
Defined.

End LedgerAccessExamples.

(** ** The ledger: the totals the read routes report *)
Section LedgerTotals.
Import Http Db Finance Fixtures.

Lemma shipmentOfCompany_found db shipmentId companyId :
  shipmentOfCompany db shipmentId companyId = true ->
  exists shipment,
    findShipment db shipmentId companyId = Some shipment
    /\ s_id shipment = shipmentId.
Proof.
  unfold shipmentOfCompany, findShipment. intros H.
  destruct (find _ (shipments db)) as [shipment|] eqn:Hfind.
  - exists shipment. split; [reflexivity|].
    apply find_some in Hfind as [_ Hok].
    apply andb_prop in Hok as [Hid _]. now apply String.eqb_eq.
  - apply existsb_exists in H as (s & Hin & Hok).
    rewrite (find_none _ _ Hfind s Hin) in Hok. discriminate Hok.
Qed.

(** The guard of the pay route and the shipment summary agree: for an
    unpaid disbursement the caller can reach, the summary route reports a
    balance for its shipment, and the pay request is refused (400) exactly
    when that balance is below the amount, and succeeds (200) exactly when
    the balance covers it. *)
Theorem pay_guard_agrees_with_summary caller id now db expense :
  includes ["DIRECTOR"; "ACCOUNTANT"] (role caller) = true ->
  findExpense db id (companyId caller) = Some expense ->
  e_paid expense = false ->
  e_type expense = DISBURSEMENT ->
  exists balance,
    reportedBalance caller (e_shipmentId expense) db = Some balance
    /\ (status (fst (payExpense caller id now db)) = 400
        <-> balance < e_amount expense)
    /\ (status (fst (payExpense caller id now db)) = 200
        <-> e_amount expense <= balance).
Proof.
  intros Hrole Hfind Hunpaid Htype.
  destruct (findExpense_own db id (companyId caller) expense Hfind)
    as (_ & _ & Hown).
  destruct (shipmentOfCompany_found db _ _ Hown) as (shipment & Hship & Hid).
  exists (specBalance (expensesOf db (e_shipmentId expense))). split.
  - rewrite (reportedBalance_is_specBalance caller _ db shipment Hship).
    now rewrite Hid.
  - unfold payExpense.
    rewrite (accountant_may_pass caller Hrole), Hfind, Hunpaid, Htype.
    rewrite currentBalance_is_specBalance.
    destruct (specBalance (expensesOf db (e_shipmentId expense))
              <? e_amount expense) eqn:E; cbn [fst status failure okData].
    + apply Z.ltb_lt in E. repeat split; intros; try lia; try discriminate.
    + apply Z.ltb_ge in E. repeat split; intros; try lia; try discriminate.
Qed.

Lemma pay_guard_agrees_with_summary_witness :
  includes ["DIRECTOR"; "ACCOUNTANT"] (role accountant) = true
  /\ findExpense smallLedger "e2" (companyId accountant)
     = Some (mkExpense "e2" "s1" DISBURSEMENT "DD" "Droit de Douane" 30
                       None None None None false None)
  /\ exists balance,
       reportedBalance accountant "s1" smallLedger = Some balance
       /\ (status (fst (payExpense accountant "e2" 7 smallLedger)) = 200
           <-> 30 <= balance).
Proof.
  split; [reflexivity|]. split; [reflexivity|].
  destruct (pay_guard_agrees_with_summary accountant "e2" 7 smallLedger
              (mkExpense "e2" "s1" DISBURSEMENT "DD" "Droit de Douane" 30
                         None None None None false None)
              eq_refl eq_refl eq_refl eq_refl) as (balance & Hsum & _ & Hok).
  exists balance. split; [exact Hsum | exact Hok].
Defined.

End LedgerTotals.

Section CompanyTotals.
Import Http Db Finance Fixtures.

Lemma sumValues_addToCategory m category amount :
  sumValues (addToCategory m category amount) = sumValues m + amount.
Proof.
  induction m as [|[k v] m IH]; cbn [addToCategory sumValues fold_right snd].
  - lia.
  - destruct (String.eqb k category); cbn [sumValues fold_right snd].
    + fold (sumValues m). lia.
    + fold (sumValues (addToCategory m category amount)). fold (sumValues m).
      rewrite IH. lia.
Qed.

Lemma categoryTotal_addToCategory m category amount c :
  categoryTotal (addToCategory m category amount) c
  = if String.eqb category c
    then Some (orElse (categoryTotal m category) 0 + amount)
    else categoryTotal m c.
Proof.
  induction m as [|[k v] m IH]; cbn [addToCategory categoryTotal].
  - destruct (String.eqb category c); reflexivity.
  - destruct (String.eqb k category) eqn:Ek; cbn [categoryTotal].
    + apply String.eqb_eq in Ek. subst k.
      destruct (String.eqb category c); reflexivity.
    + rewrite IH. destruct (String.eqb category c) eqn:Ec.
      * apply String.eqb_eq in Ec. subst c. now rewrite Ek.
      * reflexivity.
Qed.

(** What the loop of the company summary leaves in its four counters. *)
Lemma company_loop (es : list Expense) (p d q : Z) (m : list (string * Z)) :
  exists m',
    fold_left companyStep es (p, d, q, m)
    = (p + sumAmounts (filter isProvision es),
       d + sumAmounts (filter (fun e => negb (isProvision e)) es),
       q + sumAmounts (filter isPaidDisbursement es),
       m')
    /\ sumValues m'
       = sumValues m + sumAmounts (filter (fun e => negb (isProvision e)) es)
    /\ forall c,
         categoryTotal m' c
         = match filter (isDisbursementOf c) es with
           | [] => categoryTotal m c
           | rows => Some (orElse (categoryTotal m c) 0 + sumAmounts rows)
           end.
Proof.
  revert p d q m. induction es as [|e es IH]; intros p d q m.
  - exists m. cbn. repeat split; try lia.
    repeat (apply (f_equal2 pair)); try reflexivity; lia.
  - cbn [fold_left].
    assert (Hstep :
              companyStep (p, d, q, m) e
              = (p + (if isProvision e then e_amount e else 0),
                 d + (if negb (isProvision e) then e_amount e else 0),
                 q + (if isPaidDisbursement e then e_amount e else 0),
                 if isProvision e then m
                 else addToCategory m (e_category e) (e_amount e))).
    { unfold companyStep, isProvision, isPaidDisbursement.
      destruct (e_type e), (e_paid e); cbn;
        repeat (apply (f_equal2 pair)); try reflexivity; lia. }
    assert (Hof : forall c,
               isDisbursementOf c e
               = negb (isProvision e) && String.eqb (e_category e) c).
    { intros c. unfold isDisbursementOf, isProvision.
      destruct (e_type e); reflexivity. }
    rewrite Hstep.
    destruct (IH (p + (if isProvision e then e_amount e else 0))
                 (d + (if negb (isProvision e) then e_amount e else 0))
                 (q + (if isPaidDisbursement e then e_amount e else 0))
                 (if isProvision e then m
                  else addToCategory m (e_category e) (e_amount e)))
      as (m' & Hrun & Hsum & Hcat).
    exists m'. split; [|split].
    + rewrite Hrun. cbn [filter].
      destruct (isProvision e), (isPaidDisbursement e); cbn [negb];
        rewrite ?sumAmounts_cons;
        repeat (apply (f_equal2 pair)); try reflexivity; lia.
    + rewrite Hsum. cbn [filter].
      destruct (isProvision e); cbn [negb];
        rewrite ?sumValues_addToCategory, ?sumAmounts_cons; lia.
    + intros c. rewrite Hcat. cbn [filter]. rewrite Hof.
      destruct (isProvision e); cbn [negb andb]; [reflexivity|].
      rewrite categoryTotal_addToCategory.
      destruct (String.eqb (e_category e) c) eqn:Ec; [|reflexivity].
      apply String.eqb_eq in Ec. subst c.
      destruct (filter (isDisbursementOf (e_category e)) es) as [|x rows];
        cbn [orElse]; rewrite ?sumAmounts_cons; f_equal; cbn; lia.
Qed.


(** Sums over the shipments of a company. *)
Lemma shipmentOfCompany_filtered db k companyId :
  shipmentOfCompany db k companyId
  = existsb (fun s => String.eqb (s_id s) k)
            (filter (fun s => String.eqb (s_companyId s) companyId) (shipments db)).
Proof.
  unfold shipmentOfCompany.
  induction (shipments db) as [|s l IH]; [reflexivity|].
  cbn [existsb filter].
  destruct (String.eqb (s_companyId s) companyId); cbn [existsb].
  - now rewrite IH, andb_true_r.
  - now rewrite IH, andb_false_r.
Qed.

Lemma share_of_unique_shipment (S : list Shipment) (k : string) (x : Z) :
  NoDup (map s_id S) ->
  fold_right (fun s acc => (if String.eqb k (s_id s) then x else 0) + acc) 0 S
  = if existsb (fun s => String.eqb (s_id s) k) S then x else 0.
Proof.
  induction S as [|s S IH]; intros Hnodup; [reflexivity|].
  cbn [map] in Hnodup. inversion Hnodup as [|? ? Hfresh Hrest]; subst.
  cbn [fold_right existsb]. rewrite (IH Hrest).
  rewrite (String.eqb_sym k (s_id s)).
  destruct (String.eqb (s_id s) k) eqn:E; cbn [orb]; [|lia].
  apply String.eqb_eq in E.
  destruct (existsb (fun s0 => String.eqb (s_id s0) k) S) eqn:Ex; [|lia].
  exfalso. apply existsb_exists in Ex as (s' & Hin & Hk).
  apply String.eqb_eq in Hk. apply Hfresh. rewrite E, <- Hk. now apply in_map.
Qed.

Lemma shipment_balances_cons (S : list Shipment) (e : Expense) (E : list Expense) :
  fold_right (fun s acc => specBalance (filter (ofShipment (s_id s)) (e :: E)) + acc)
             0 S
  = fold_right (fun s acc => specBalance (filter (ofShipment (s_id s)) E) + acc) 0 S
    + fold_right (fun s acc =>
                    (if String.eqb (e_shipmentId e) (s_id s)
                     then contribution e else 0) + acc) 0 S.
Proof.
  induction S as [|s S IH]; [reflexivity|].
  cbn [fold_right]. rewrite IH.
  assert (Hhead : specBalance (filter (ofShipment (s_id s)) (e :: E))
                  = (if String.eqb (e_shipmentId e) (s_id s)
                     then contribution e else 0)
                    + specBalance (filter (ofShipment (s_id s)) E)).
  { cbn [filter]. unfold ofShipment at 1.
    destruct (String.eqb (e_shipmentId e) (s_id s));
      rewrite ?specBalance_cons; lia. }
  rewrite Hhead. lia.
Qed.


Lemma sharedLedger_shipments_unique : NoDup (map s_id (shipments sharedLedger)).
Proof. repeat constructor; simpl; intuition discriminate. Defined.


End CompanyTotals.

Section LedgerDelete.
Import Http Db Finance Fixtures.

Lemma find_none_all {A : Type} (P : A -> bool) (l : list A) :
  (forall x, In x l -> P x = false) -> find P l = None.
Proof.
  induction l as [|x l IH]; intros H; [reflexivity|].
  cbn [find]. rewrite (H x (or_introl eq_refl)).
  apply IH. intros y Hy. apply H. now right.
Qed.

Lemma delete_absent_id (id : string) (rows : list Expense) :
  ~ In id (map e_id rows) -> deleteExpenseRows id rows = rows.
Proof.
  induction rows as [|e rows IH]; intros Habsent; [reflexivity|].
  cbn [deleteExpenseRows filter map] in *.
  destruct (String.eqb (e_id e) id) eqn:E; cbn [negb].
  - apply String.eqb_eq in E. exfalso. apply Habsent. now left.
  - f_equal. apply IH. intros Hin. apply Habsent. now right.
Qed.

Lemma delete_rows_balance (rows : list Expense) expense shipmentId :
  NoDup (map e_id rows) -> In expense rows ->
  specBalance (filter (ofShipment shipmentId)
                      (deleteExpenseRows (e_id expense) rows))
  = specBalance (filter (ofShipment shipmentId) rows)
    - (if ofShipment shipmentId expense then contribution expense else 0).
Proof.
  induction rows as [|e rows IH]; intros Hnodup Hin; [contradiction|].
  cbn [map] in Hnodup. inversion Hnodup as [|? ? Hfresh Hrest]; subst.
  cbn [deleteExpenseRows filter]. fold (deleteExpenseRows (e_id expense) rows).
  destruct (String.eqb (e_id e) (e_id expense)) eqn:E; cbn [negb].
  - apply String.eqb_eq in E.
    assert (e = expense) as ->.
    { destruct Hin as [-> | Hin]; [reflexivity|].
      exfalso. apply Hfresh. rewrite E. now apply in_map. }
    rewrite (delete_absent_id _ rows Hfresh).
    destruct (ofShipment shipmentId expense); rewrite ?specBalance_cons; lia.
  - assert (Hin' : In expense rows).
    { destruct Hin as [-> | Hin]; [now rewrite String.eqb_refl in E | exact Hin]. }
    cbn [filter]. destruct (ofShipment shipmentId e).
    + rewrite !specBalance_cons, (IH Hrest Hin'). lia.
    + exact (IH Hrest Hin').
Qed.

(** A delete request on an unpaid expense the caller can reach, on a
    ledger with unique ids: it answers 200, no expense of that id is left
    for any company, and every balance is the former one less what the
    row added to it: nothing for a disbursement (an unpaid one never
    counted), its amount for a provision. *)
Theorem deleteExpense_removes_unpaid caller id db expense :
  NoDup (map e_id (expenses db)) ->
  includes ["DIRECTOR"; "ACCOUNTANT"] (role caller) = true ->
  findExpense db id (companyId caller) = Some expense ->
  e_paid expense = false ->
  let db' := snd (deleteExpense caller id db) in
  status (fst (deleteExpense caller id db)) = 200
  /\ (forall companyId, findExpense db' id companyId = None)
  /\ (forall shipmentId,
         specBalance (expensesOf db' shipmentId)
         = specBalance (expensesOf db shipmentId)
           - (if ofShipment shipmentId expense
              then match e_type expense with
                   | PROVISION => e_amount expense
                   | DISBURSEMENT => 0
                   end
              else 0)).
Proof.
  intros Hnodup Hrole Hfind Hunpaid db'.
  destruct (findExpense_own db id (companyId caller) expense Hfind)
    as (Hin & Hid & _).
  subst db'. unfold deleteExpense.
  rewrite (accountant_may_pass caller Hrole), Hfind, Hunpaid.
  cbn [fst snd status okEmpty]. split; [reflexivity|]. split.
  - intros company. unfold findExpense. cbn [expenses with_expenses].
    apply find_none_all. intros e He. unfold deleteExpenseRows in He.
    apply filter_In in He as [_ Hkeep]. rewrite Hid in Hkeep.
    apply negb_true_iff in Hkeep. now rewrite Hkeep.
  - intros shipmentId. unfold expensesOf. cbn [expenses with_expenses].
    rewrite (delete_rows_balance (expenses db) expense shipmentId Hnodup Hin).
    unfold contribution, isProvision, isPaidDisbursement. rewrite Hunpaid.
    destruct (ofShipment shipmentId expense), (e_type expense); cbn; lia.
Qed.

(** Deleting the unpaid disbursement and then the provision of the small
    ledger. *)
Lemma deleteExpense_removes_unpaid_witness :
  NoDup (map e_id (expenses smallLedger))
  /\ findExpense smallLedger "e2" (companyId accountant)
     = Some (mkExpense "e2" "s1" DISBURSEMENT "DD" "Droit de Douane" 30
                       None None None None false None)
  /\ findExpense (snd (deleteExpense accountant "e2" smallLedger)) "e2" "c1" = None
  /\ specBalance (expensesOf (snd (deleteExpense accountant "e2" smallLedger)) "s1")
     = specBalance (expensesOf smallLedger "s1") - 0.
Proof.
  split; [exact smallLedger_ids_unique|]. split; [reflexivity|].
  destruct (deleteExpense_removes_unpaid accountant "e2" smallLedger
              (mkExpense "e2" "s1" DISBURSEMENT "DD" "Droit de Douane" 30
                         None None None None false None)
              smallLedger_ids_unique eq_refl eq_refl eq_refl)
    as (_ & Hgone & Hbalance).
  split; [exact (Hgone "c1") | exact (Hbalance "s1")].
Defined.

End LedgerDelete.

(** ** Shipments: archiving and the dashboard *)
Section ShipmentArchive.
Import Http Db Shipments Fixtures.

Lemma findShipment_after_update db id companyId shipment f :
  (forall s, s_id (f s) = s_id s) ->
  (forall s, s_companyId (f s) = s_companyId s) ->
  findShipment db id companyId = Some shipment ->
  findShipment (with_shipments db (updateShipmentRows id f (shipments db)))
               id companyId
  = Some (f shipment).
Proof.
  intros Hid Hco Hfind. unfold findShipment, updateShipmentRows in *.
  cbn [shipments with_shipments]. rewrite find_map_stable.
  - rewrite Hfind. cbn [option_map].
    apply find_some in Hfind as [_ Hok]. apply andb_prop in Hok as [Hok _].
    now rewrite Hok.
  - intros s. destruct (String.eqb (s_id s) id) eqn:E;
      [now rewrite Hid, Hco, E | now rewrite E].
Qed.

Lemma archive_twice (id : string) (rows : list Shipment) :
  updateShipmentRows id setArchived (updateShipmentRows id setArchived rows)
  = updateShipmentRows id setArchived rows.
Proof.
  unfold updateShipmentRows. rewrite map_map. apply map_ext. intros s.
  destruct (String.eqb (s_id s) id) eqn:E.
  - cbn [setArchived s_id]. now rewrite E.
  - now rewrite E.
Qed.

(** Archiving a shipment the caller can reach never removes it: the row
    is still found, with status ARCHIVED and its other columns untouched;
    no row is added or removed; the ledger is untouched; and no timeline
    event records the change. Archiving again changes nothing. The same
    status change sent as a PATCH differs in one thing: it appends the
    timeline event. *)
Theorem archive_keeps_the_row caller id now db shipment :
  includes ["DIRECTOR"; "ACCOUNTANT"; "AGENT"] (role caller) = true ->
  findShipment db id (companyId caller) = Some shipment ->
  let db' := snd (archiveShipment caller id db) in
  fst (archiveShipment caller id db) = okMessage "Dossier archivé"
  /\ findShipment db' id (companyId caller) = Some (setArchived shipment)
  /\ map s_id (shipments db') = map s_id (shipments db)
  /\ timeline db' = timeline db
  /\ expenses db' = expenses db
  /\ archiveShipment caller id db' = (okMessage "Dossier archivé", db')
  /\ (s_status shipment <> ARCHIVED ->
      patchShipment None caller id (patchStatus ARCHIVED) now db
      = (okData 200 (setArchived shipment),
         with_timeline db'
           (timeline db
            ++ [mkTimelineEvent (s_id shipment) "Statut changé: ARCHIVED"
                                (Some (Http.id caller)) (Some (name caller)) now]))).
Proof.
  intros Hrole Hfind db'.
  assert (Hfound := findShipment_after_update db id (companyId caller) shipment
                      setArchived (fun _ => eq_refl) (fun _ => eq_refl) Hfind).
  assert (Hrun : archiveShipment caller id db
                 = (okMessage "Dossier archivé",
                    with_shipments db
                      (updateShipmentRows id setArchived (shipments db)))).
  { unfold archiveShipment. now rewrite (agent_may_pass caller Hrole), Hfind. }
  subst db'. rewrite Hrun. cbn [fst snd].
  split; [reflexivity|]. split; [exact Hfound|]. split.
  { cbn [shipments with_shipments]. unfold updateShipmentRows.
    rewrite map_map. apply map_ext. intros s.
    destruct (String.eqb (s_id s) id); reflexivity. }
  split; [reflexivity|]. split; [reflexivity|]. split.
  - unfold archiveShipment. rewrite (agent_may_pass caller Hrole), Hfound.
    f_equal. unfold with_shipments. cbn [shipments users refreshTokens timeline
                                         expenses outbox].
    now rewrite archive_twice.
  - intros Hne. unfold patchShipment.
    rewrite (agent_may_pass caller Hrole), Hfind. cbn [throws].
    rewrite (statusChanged_differs (patchStatus ARCHIVED) shipment ARCHIVED
               eq_refl (fun H => Hne (eq_sym H))).
    cbn [patchStatus sp_status]. f_equal.
Qed.

(** The agent archives the demonstration shipment. *)
Lemma archive_keeps_the_row_witness :
  includes ["DIRECTOR"; "ACCOUNTANT"; "AGENT"] (role agent) = true
  /\ findShipment emptyLedger "s1" (companyId agent) = Some demoShipment
  /\ findShipment (snd (archiveShipment agent "s1" emptyLedger)) "s1" "c1"
     = Some (setArchived demoShipment)
  /\ timeline (snd (archiveShipment agent "s1" emptyLedger)) = [].
Proof.
  split; [reflexivity|]. split; [reflexivity|].
  destruct (archive_keeps_the_row agent "s1" 0 emptyLedger demoShipment
              eq_refl eq_refl) as (_ & Hfound & _ & Htimeline & _).
  split; [exact Hfound | exact Htimeline].
Defined.

End ShipmentArchive.

Section Dashboard.
Import Http Db Shipments Fixtures.

Variable newestFirst : list Shipment -> list Shipment.

Lemma statsStep_group ty paid rows p d q :
  fold_left statsStep
    (match filter (inGroup ty paid) rows with
     | [] => []
     | members =>
         [mkExpenseGroup ty paid
            (fold_right (fun e acc => e_amount e + acc) 0 members)]
     end) (p, d, q)
  = match ty with
    | PROVISION => (p + groupSum ty paid rows, d, q)
    | DISBURSEMENT =>
        (p, d + groupSum ty paid rows,
         if paid then q + groupSum ty paid rows else q)
    end.
Proof.
  unfold groupSum, Finance.sumAmounts.
  destruct (filter (inGroup ty paid) rows) as [|e members].
  - destruct ty, paid; cbn; pair_lia.
  - destruct ty, paid; reflexivity.
Qed.

Lemma sums_by_group (rows : list Expense) :
  Finance.sumAmounts (filter Finance.isProvision rows)
  = groupSum PROVISION false rows + groupSum PROVISION true rows
  /\ Finance.sumAmounts (filter (fun e => negb (Finance.isProvision e)) rows)
     = groupSum DISBURSEMENT false rows + groupSum DISBURSEMENT true rows
  /\ Finance.sumAmounts (filter Finance.isPaidDisbursement rows)
     = groupSum DISBURSEMENT true rows.
Proof.
  unfold groupSum. induction rows as [|e rows (IH1 & IH2 & IH3)].
  - repeat split.
  - cbn [filter].
    assert (Hhead :
              Finance.isProvision e = inGroup PROVISION false e || inGroup PROVISION true e
              /\ Finance.isPaidDisbursement e = inGroup DISBURSEMENT true e
              /\ (inGroup PROVISION false e = true \/ inGroup PROVISION true e = true
                  \/ inGroup DISBURSEMENT false e = true
                  \/ inGroup DISBURSEMENT true e = true)
              /\ (inGroup PROVISION false e && inGroup PROVISION true e = false)
              /\ (inGroup DISBURSEMENT false e && inGroup DISBURSEMENT true e = false)
              /\ ((inGroup PROVISION false e || inGroup PROVISION true e)
                  && (inGroup DISBURSEMENT false e || inGroup DISBURSEMENT true e)
                  = false)).
    { unfold Finance.isProvision, Finance.isPaidDisbursement, inGroup.
      destruct (e_type e), (e_paid e); cbn; tauto. }
    destruct Hhead as (Hp & Hq & Hsome & Hx1 & Hx2 & Hx3). rewrite Hp, Hq.
    destruct (inGroup PROVISION false e), (inGroup PROVISION true e),
      (inGroup DISBURSEMENT false e), (inGroup DISBURSEMENT true e);
      cbn [orb andb negb] in *; try discriminate;
      rewrite ?sumAmounts_cons; repeat split; try lia;
      destruct Hsome as [H | [H | [H | H]]]; discriminate H.
Qed.


Lemma counted_statuses_are_disjoint (companyId : string) (rows : list Shipment) :
  let count := fun statuses =>
    List.length
      (filter (fun s => String.eqb (s_companyId s) companyId
                        && existsb (status_eqb (s_status s)) statuses) rows) in
  (count [PENDING] + count inProgressStatuses + count [DELIVERED]
   <= List.length (filter (fun s => String.eqb (s_companyId s) companyId) rows))%nat.
Proof.
  intros count. subst count. induction rows as [|s rows IH]; [apply Nat.le_refl|].
  cbn [filter]. destruct (String.eqb (s_companyId s) companyId); cbn [andb].
  - destruct (s_status s);
      repeat match goal with
             | |- context [existsb (status_eqb ?a) ?l] =>
                 let b := eval vm_compute in (existsb (status_eqb a) l) in
                 change (existsb (status_eqb a) l) with b
             end;
      cbn [List.length]; lia.
  - exact IH.
Qed.

(** The counters of the dashboard: shipments pending, in progress and
    delivered are counted on disjoint statuses of the caller's company, so
    together they never exceed the total; and at most five recent
    shipments are listed. *)
Theorem dashboard_counts caller db :
  exists st,
    stats newestFirst caller db = okData 200 st
    /\ 0 <= st_pending st /\ 0 <= st_inProgress st /\ 0 <= st_delivered st
    /\ st_pending st + st_inProgress st + st_delivered st <= st_total st
    /\ (List.length (st_recentShipments st) <= 5)%nat.
Proof.
  unfold stats.
  destruct (fold_left statsStep _ (0, 0, 0)) as [[p d] q].
  eexists. split; [reflexivity|].
  cbn [st_pending st_inProgress st_delivered st_total st_recentShipments].
  unfold countStatus, countShipments.
  pose proof (counted_statuses_are_disjoint (companyId caller) (shipments db)) as H.
  cbv beta zeta in H. repeat split; try lia.
  apply firstn_le_length.
Qed.

End Dashboard.

(** What a resend request stores for an unverified account. *)
Lemma resendCode_stores_code (isEmail : string -> bool)
      email code now db user :
  isEmail email = true ->
  Db.findUserByEmail db (toLowerCase email) = Some user ->
  Db.u_emailVerified user = false ->
  Db.findUserByEmail (snd (Auth.resendCode isEmail email code now db))
                     (toLowerCase email)
  = Some (Auth.setCode code (now + 15 * 60 * 1000) user)
  /\ Db.refreshTokens (snd (Auth.resendCode isEmail email code now db))
     = Db.refreshTokens db.
Proof.
  intros He Hfind Hver. unfold Auth.resendCode.
  rewrite He, Hfind, Hver. cbn [negb snd]. split; [|reflexivity].
  apply (findUserByEmail_after_update db (toLowerCase email) user
           (Auth.setCode code (now + Auth.minutes15)));
    [reflexivity | exact Hfind].
Qed.

(** ** Sessions: verification, the guard and revocation *)
Section VerificationFacts.
Import Http Db Auth.

Variable compare : string -> string -> bool.
Variable isEmail : string -> bool.
Variable JWT_SECRET : string.
Variable REFRESH_TOKEN_SECRET : string.

Local Abbreviation login := (Auth.login compare isEmail JWT_SECRET REFRESH_TOKEN_SECRET).
Local Abbreviation verifyEmail := (Auth.verifyEmail isEmail JWT_SECRET REFRESH_TOKEN_SECRET).
Local Abbreviation resendCode := (Auth.resendCode isEmail).
Local Abbreviation refresh := (Auth.refresh JWT_SECRET REFRESH_TOKEN_SECRET).
Local Abbreviation auth := (Auth.auth JWT_SECRET).

Lemma verifyIssues_none email code :
  isEmail email = true -> String.length code = 6%nat ->
  verifyIssues isEmail email code = [].
Proof. intros He Hc. unfold verifyIssues. now rewrite He, Hc. Qed.


(** Issue a code, then verify with it: within 15 minutes of the issue the
    account becomes verified and active and a credential pair is set; the
    same code a second time is refused as already verified, and so is any
    other request once verified. Had the first verification come later
    than 15 minutes after the issue, it would have been refused as
    expired; with another code, as incorrect; in both cases nothing is
    written. *)
Theorem resend_then_verify email code now db user :
  isEmail email = true -> String.length code = 6%nat ->
  findUserByEmail db (toLowerCase email) = Some user ->
  u_emailVerified user = false ->
  let issued := snd (resendCode email code now db) in
  (forall now',
      now' <= now + 15 * 60 * 1000 ->
      exists response verified,
        verifyEmail email code now' issued = (response, verified)
        /\ status response = 200
        /\ (exists accessToken refreshToken,
               cookies response
               = [("accessToken", accessToken); ("refreshToken", refreshToken)])
        /\ (exists user',
               findUserByEmail verified (toLowerCase email) = Some user'
               /\ u_emailVerified user' = true /\ u_isActive user' = true
               /\ u_verificationCode user' = None)
        /\ (forall code' now'',
               String.length code' = 6%nat ->
               verifyEmail email code' now'' verified
               = (failure 400 (Text "Email déjà vérifié"), verified)))
  /\ (forall now',
         now + 15 * 60 * 1000 < now' ->
         verifyEmail email code now' issued
         = (failure 400 (Text "Code expiré"), issued))
  /\ (forall code' now',
         String.length code' = 6%nat -> code' <> code ->
         verifyEmail email code' now' issued
         = (failure 400 (Text "Code incorrect"), issued)).
Proof.
  intros He Hlen Hfind Hver issued.
  destruct (resendCode_stores_code isEmail email code now db user
              He Hfind Hver)
    as (Hissued & _).
  fold issued in Hissued.
  set (pending := setCode code (now + 15 * 60 * 1000) user) in *.
  split; [|split].
  - intros now' Hnow'.
    destruct (verifyEmail email code now' issued) as [response verified] eqn:Hrun.
    exists response, verified. split; [reflexivity|].
    assert (Hshape : response
                     = mkResponse 200 true None None false []
                         [("accessToken",
                           fst (generateTokens JWT_SECRET REFRESH_TOKEN_SECRET
                                  (u_id user) (u_role user) (u_companyId user) now'));
                          ("refreshToken",
                           snd (generateTokens JWT_SECRET REFRESH_TOKEN_SECRET
                                  (u_id user) (u_role user) (u_companyId user) now'))]
                         (Some (viewOf pending))
                     /\ findUserByEmail verified (toLowerCase email)
                        = Some (setVerified pending)).
    { unfold Auth.verifyEmail in Hrun.
      rewrite (verifyIssues_none email code He Hlen), Hissued in Hrun.
      unfold pending in Hrun.
      cbn [setCode u_emailVerified u_verificationCode optString_eqb] in Hrun.
      rewrite Hver, String.eqb_refl in Hrun. cbn [negb] in Hrun.
      unfold codeExpired in Hrun. cbn [setCode u_codeExpiresAt] in Hrun.
      apply Z.ltb_ge in Hnow'. rewrite Hnow' in Hrun.
      inversion Hrun; subst response verified. split; [reflexivity|].
      apply (findUserByEmail_after_update issued (toLowerCase email) pending
               setVerified); [reflexivity | exact Hissued]. }
    destruct Hshape as [-> Hverified].
    split; [reflexivity|]. split; [do 2 eexists; reflexivity|]. split.
    + exists (setVerified pending). repeat split. exact Hverified.
    + intros code' now'' Hlen'. unfold Auth.verifyEmail.
      rewrite (verifyIssues_none email code' He Hlen'), Hverified. reflexivity.
  - intros now' Hlate. unfold Auth.verifyEmail.
    rewrite (verifyIssues_none email code He Hlen), Hissued.
    unfold pending.
    cbn [setCode u_emailVerified u_verificationCode optString_eqb].
    rewrite Hver, String.eqb_refl. cbn [negb].
    unfold codeExpired. cbn [setCode u_codeExpiresAt].
    apply Z.ltb_lt in Hlate. now rewrite Hlate.
  - intros code' now' Hlen' Hne. unfold Auth.verifyEmail.
    rewrite (verifyIssues_none email code' He Hlen'), Hissued.
    unfold pending.
    cbn [setCode u_emailVerified u_verificationCode optString_eqb].
    rewrite Hver.
    assert (Hdiff : String.eqb code code' = false).
    { apply String.eqb_neq. congruence. }
    now rewrite Hdiff.
Qed.

End VerificationFacts.

Section GuardFacts.
Import Http Db Auth.

Variable compare : string -> string -> bool.
Variable isEmail : string -> bool.
Variable JWT_SECRET : string.
Variable REFRESH_TOKEN_SECRET : string.

Local Abbreviation login := (Auth.login compare isEmail JWT_SECRET REFRESH_TOKEN_SECRET).
Local Abbreviation verifyEmail := (Auth.verifyEmail isEmail JWT_SECRET REFRESH_TOKEN_SECRET).
Local Abbreviation resendCode := (Auth.resendCode isEmail).
Local Abbreviation refresh := (Auth.refresh JWT_SECRET REFRESH_TOKEN_SECRET).
Local Abbreviation auth := (Auth.auth JWT_SECRET).

(** A login is answered 200 only for an existing account that is
    verified, active and not locked, and only with a password that
    matches its hash; any other answer sets no cookie and stores no
    refresh credential. *)
Theorem login_succeeds_only_if email password code now db response db' :
  login email password code now db = (response, db') ->
  (status response = 200 ->
   exists user,
     findUserByEmail db (toLowerCase email) = Some user
     /\ u_emailVerified user = true /\ u_isActive user = true
     /\ lockedAt user now = None
     /\ compare password (u_password user) = true)
  /\ (status response <> 200 ->
      cookies response = [] /\ refreshTokens db' = refreshTokens db).
Proof.
  unfold Auth.login. intros Hrun.
  destruct (loginIssues isEmail email password);
    [|inversion Hrun; subst; split; [discriminate | now split]].
  destruct (findUserByEmail db (toLowerCase email)) as [user|] eqn:Hfind;
    [|inversion Hrun; subst; split; [discriminate | now split]].
  destruct (lockedAt user now) eqn:Hlock;
    [inversion Hrun; subst; split; [discriminate | now split]|].
  destruct (u_emailVerified user) eqn:Hver; cbn [negb] in Hrun;
    [|inversion Hrun; subst; split; [discriminate | now split]].
  destruct (u_isActive user) eqn:Hact; cbn [negb] in Hrun;
    [|inversion Hrun; subst; split; [discriminate | now split]].
  destruct (compare password (u_password user)) eqn:Hcmp; cbn [negb] in Hrun;
    [|inversion Hrun; subst; split; [discriminate | now split]].
  inversion Hrun; subst. split; [|intros H; now contradiction H].
  intros _. exists user. repeat split; assumption.
Qed.

(** The guard lets a request through only with a credential signed with
    the access secret and not expired, whose user exists and is active and
    verified; and the identity it attaches is read from the user row: the
    role and company claims of the credential play no part. *)
Theorem auth_attaches_the_stored_identity cookie bearer now db identity :
  auth cookie bearer now db = inr identity ->
  exists token claims user,
    (cookie = Some token \/ (cookie = None /\ bearer = Some token))
    /\ Jwt.verify token JWT_SECRET now = inr claims
    /\ findUserById db (Jwt.userId claims) = Some user
    /\ u_isActive user = true /\ u_emailVerified user = true
    /\ identity = mkIdentity (u_id user) (u_email user) (u_name user)
                             (u_role user) (u_companyId user).
Proof.
  unfold Auth.auth. intros Hrun.
  assert (Hpick : exists token,
             (cookie = Some token \/ (cookie = None /\ bearer = Some token))
             /\ match cookie with Some c => Some c | None => bearer end = Some token).
  { destruct cookie as [c|]; [exists c; split; [now left | reflexivity]|].
    destruct bearer as [b|];
      [exists b; split; [right; now split | reflexivity] | discriminate Hrun]. }
  destruct Hpick as (token & Hfrom & Hpick). rewrite Hpick in Hrun.
  destruct (Jwt.verify token JWT_SECRET now) as [[|] | claims] eqn:Hverify;
    try discriminate Hrun.
  destruct (findUserById db (Jwt.userId claims)) as [user|] eqn:Hfind;
    [|discriminate Hrun].
  destruct (u_isActive user) eqn:Hact; cbn [negb] in Hrun; [|discriminate Hrun].
  destruct (u_emailVerified user) eqn:Hver; cbn [negb] in Hrun; [|discriminate Hrun].
  injection Hrun as <-. exists token, claims, user. repeat split; assumption.
Qed.

(** Credentials are single-purpose when the two secrets differ: the guard
    rejects every refresh credential as invalid, and the refresh handler
    rejects every access credential. *)
Theorem credentials_are_single_purpose userId role companyId issuedAt now db :
  JWT_SECRET <> REFRESH_TOKEN_SECRET ->
  let tokens := generateTokens JWT_SECRET REFRESH_TOKEN_SECRET
                  userId role companyId issuedAt in
  auth (Some (snd tokens)) None now db
  = inl (failureCode 401 (Text "Token invalide") "INVALID_TOKEN")
  /\ auth None (Some (snd tokens)) now db
     = inl (failureCode 401 (Text "Token invalide") "INVALID_TOKEN")
  /\ refresh (Some (fst tokens)) now db
     = (failure 401 (Text "Token invalide"), db).
Proof.
  intros Hdiff tokens.
  assert (H1 : String.eqb REFRESH_TOKEN_SECRET JWT_SECRET = false)
    by (apply String.eqb_neq; congruence).
  assert (H2 : String.eqb JWT_SECRET REFRESH_TOKEN_SECRET = false)
    by (now apply String.eqb_neq).
  subst tokens. unfold Auth.auth, Auth.refresh.
  cbn [generateTokens fst snd Jwt.sign Jwt.verify]. rewrite H1, H2.
  repeat split.
Qed.

(** Revocation is monotonic: no handler of the session routes removes a
    stored refresh credential or clears or changes a revocation stamp;
    a row once revoked is found unchanged after any of them. *)
Theorem revocation_is_monotonic db r :
  In r (refreshTokens db) -> rt_revokedAt r <> None ->
  (forall email password code now,
      In r (refreshTokens (snd (login email password code now db))))
  /\ (forall email code now,
         In r (refreshTokens (snd (verifyEmail email code now db))))
  /\ (forall email code now,
         In r (refreshTokens (snd (resendCode email code now db))))
  /\ (forall cookie now, In r (refreshTokens (snd (refresh cookie now db))))
  /\ (forall caller now, In r (refreshTokens (snd (logout caller now db)))).
Proof.
  intros Hin Hrevoked. repeat split; intros.
  - unfold Auth.login.
    repeat match goal with
           | |- context [match ?x with _ => _ end] => destruct x
           end; cbn [snd refreshTokens with_refreshTokens with_users with_outbox];
      try assumption; apply in_or_app; now left.
  - unfold Auth.verifyEmail.
    repeat match goal with
           | |- context [match ?x with _ => _ end] => destruct x
           end; cbn [snd refreshTokens with_refreshTokens with_users with_outbox];
      try assumption; apply in_or_app; now left.
  - unfold Auth.resendCode.
    repeat match goal with
           | |- context [match ?x with _ => _ end] => destruct x
           end; cbn [snd refreshTokens with_refreshTokens with_users with_outbox];
      assumption.
  - unfold Auth.refresh.
    repeat match goal with
           | |- context [match ?x with _ => _ end] => destruct x
           end; cbn [snd]; assumption.
  - cbn [logout snd refreshTokens with_refreshTokens].
    apply in_map_iff. exists r. split; [|exact Hin].
    unfold revoke. destruct (rt_revokedAt r); [reflexivity | now contradiction Hrevoked].
Qed.

(** The role presets are nested: whoever passes the director check passes
    the accountant check, and whoever passes that passes the agent check;
    the role CLIENT passes none of them. *)
Theorem role_presets_are_nested (user : Identity) :
  (@requireDirector unit user = None -> @requireAccountant unit user = None)
  /\ (@requireAccountant unit user = None -> @requireAgent unit user = None)
  /\ (role user = "CLIENT" ->
      @requireAgent unit user = Some (failure 403 (Text "Accès non autorisé"))).
Proof.
  unfold requireDirector, requireAccountant, requireAgent, requireRole, includes.
  cbn [existsb]. repeat split.
  - destruct (String.eqb (role user) "DIRECTOR"); cbn; [reflexivity | discriminate].
  - destruct (String.eqb (role user) "DIRECTOR"),
      (String.eqb (role user) "ACCOUNTANT"); cbn; try reflexivity; discriminate.
  - intros ->. reflexivity.
Qed.

End GuardFacts.

(** ** The client: one request, one refresh, one retry *)
Section ClientFacts.
Import Http Db Auth Client.

Variable JWT_SECRET : string.
Variable REFRESH_TOKEN_SECRET : string.

Local Abbreviation refresh := (Auth.refresh JWT_SECRET REFRESH_TOKEN_SECRET).
Local Abbreviation request := (Client.request JWT_SECRET REFRESH_TOKEN_SECRET).

(** The answers of the refresh handler: 200 with one access credential,
    signed at the instant of the request for a user of the store, or 401. *)
Lemma refresh_answers cookie now db :
  snd (refresh cookie now db) = db
  /\ ((status (fst (refresh cookie now db)) = 401
       /\ Client.ok (fst (refresh cookie now db)) = false)
      \/ exists user,
           In user (users db)
           /\ fst (refresh cookie now db)
              = mkResponse 200 true None None false []
                  [("accessToken",
                    Jwt.sign (Jwt.mkPayload (u_id user) (Some (u_role user))
                                            (Some (u_companyId user)) None)
                             JWT_SECRET (15 * 60) now)] None).
Proof.
  unfold Auth.refresh.
  destruct cookie as [token|]; [|split; [reflexivity | left; now split]].
  destruct (Jwt.verify token REFRESH_TOKEN_SECRET now) as [e | claims];
    [split; [reflexivity | left; now split]|].
  destruct (find _ (refreshTokens db)) as [stored|];
    [|split; [reflexivity | left; now split]].
  destruct (findUserById db (rt_userId stored)) as [user|] eqn:Hfind;
    [|split; [reflexivity | left; now split]].
  split; [reflexivity|]. right. exists user. split; [|reflexivity].
  apply find_some in Hfind. tauto.
Qed.


End ClientFacts.

(** ** A verification opens a session *)
Section VerifiedSession.
Import Http Db Auth.

Variable isEmail : string -> bool.
Variable JWT_SECRET : string.
Variable REFRESH_TOKEN_SECRET : string.

Local Abbreviation verifyEmail := (Auth.verifyEmail isEmail JWT_SECRET REFRESH_TOKEN_SECRET).
Local Abbreviation refresh := (Auth.refresh JWT_SECRET REFRESH_TOKEN_SECRET).
Local Abbreviation auth := (Auth.auth JWT_SECRET).

(** The refresh handler on a store whose last refresh row is the
    credential [generateTokens] made at [t0] for a user found by id. *)
Lemma refresh_accepts_last_row db user rows t0 t1 :
  findUserById db (u_id user) = Some user ->
  Jwt.seconds t1 < Jwt.seconds t0 + 7 * 24 * 60 * 60 ->
  let token := snd (generateTokens JWT_SECRET REFRESH_TOKEN_SECRET
                      (u_id user) (u_role user) (u_companyId user) t0) in
  refreshTokens db = rows ++ [mkRefreshToken token (u_id user) (t0 + days7) None] ->
  refresh (Some token) t1 db
  = (mkResponse 200 true None None false []
       [("accessToken",
         Jwt.sign (Jwt.mkPayload (u_id user) (Some (u_role user))
                                 (Some (u_companyId user)) None)
                  JWT_SECRET (15 * 60) t1)] None,
     db).
Proof.
  intros Hbyid Hfresh token Hrows.
  set (claims := Jwt.mkPayload (u_id user) None None (Some "refresh")).
  set (row := mkRefreshToken token (u_id user) (t0 + days7) None) in *.
  assert (Hverify : Jwt.verify token REFRESH_TOKEN_SECRET t1 = inr claims).
  { unfold token, generateTokens, Jwt.sign, Jwt.verify. cbn [snd].
    rewrite String.eqb_refl. cbn [negb].
    now rewrite (not_expired _ t1 Hfresh). }
  assert (Hlive : isLiveTokenOf token (u_id user) t1 row = true).
  { unfold isLiveTokenOf, row. cbn [rt_token rt_userId rt_revokedAt rt_expiresAt].
    rewrite credential_eqb_refl, String.eqb_refl. cbn [andb].
    apply Z.ltb_lt. unfold Jwt.seconds, days7 in *.
    Z.to_euclidean_division_equations. lia. }
  destruct (find_app_last (isLiveTokenOf token (u_id user) t1) rows row Hlive)
    as (stored & Hstored & Hok).
  assert (Huser : rt_userId stored = u_id user).
  { unfold isLiveTokenOf in Hok.
    apply andb_prop in Hok as [Hok _]. apply andb_prop in Hok as [Hok _].
    apply andb_prop in Hok as [_ Hok]. now apply String.eqb_eq. }
  unfold Auth.refresh. rewrite Hverify.
  change (Jwt.userId claims) with (u_id user).
  rewrite Hrows, Hstored, Huser, Hbyid. reflexivity.
Qed.

(** The cookies of a successful verification are a working session, on a
    store whose user ids are unique: within 15 minutes the guard accepts
    the access credential and attaches the identity of the verified user;
    within 7 days the refresh handler accepts the refresh credential,
    answers 200 and leaves the store as it is. *)
Theorem verification_opens_a_session email code now db response db' t1 t2 :
  NoDup (map u_id (users db)) ->
  verifyEmail email code now db = (response, db') ->
  status response = 200 ->
  exists user accessToken refreshToken,
    findUserByEmail db (toLowerCase email) = Some user
    /\ cookies response
       = [("accessToken", accessToken); ("refreshToken", refreshToken)]
    /\ (Jwt.seconds t1 < Jwt.seconds now + 15 * 60 ->
        auth (Some accessToken) None t1 db'
        = inr (mkIdentity (u_id user) (u_email user) (u_name user)
                          (u_role user) (u_companyId user)))
    /\ (Jwt.seconds t2 < Jwt.seconds now + 7 * 24 * 60 * 60 ->
        status (fst (refresh (Some refreshToken) t2 db')) = 200
        /\ snd (refresh (Some refreshToken) t2 db') = db').
Proof.
  intros Hnodup Hrun Hstatus. unfold Auth.verifyEmail in Hrun.
  destruct (verifyIssues isEmail email code);
    [|inversion Hrun; subst; discriminate Hstatus].
  destruct (findUserByEmail db (toLowerCase email)) as [user|] eqn:Hfind;
    [|inversion Hrun; subst; discriminate Hstatus].
  destruct (u_emailVerified user);
    [inversion Hrun; subst; discriminate Hstatus|].
  destruct (negb (optString_eqb (u_verificationCode user) (Some code)));
    [inversion Hrun; subst; discriminate Hstatus|].
  destruct (codeExpired user now);
    [inversion Hrun; subst; discriminate Hstatus|].
  injection Hrun as Hresponse Hstore. clear Hstatus.
  assert (Hbyid : findUserById db (u_id user) = Some user).
  { apply find_by_unique_id; [exact Hnodup|].
    unfold findUserByEmail in Hfind. apply find_some in Hfind.
    exact (proj1 Hfind). }
  assert (Hrow : findUserById db' (u_id (setVerified user)) = Some (setVerified user)).
  { rewrite <- Hstore.
    exact (findUserById_after_update db user setVerified (fun _ => eq_refl) Hbyid). }
  assert (Hrows : refreshTokens db'
                  = refreshTokens db
                    ++ [mkRefreshToken
                          (snd (generateTokens JWT_SECRET REFRESH_TOKEN_SECRET
                                  (u_id (setVerified user)) (u_role (setVerified user))
                                  (u_companyId (setVerified user)) now))
                          (u_id (setVerified user)) (now + days7) None])
    by (rewrite <- Hstore; reflexivity).
  set (tokens := generateTokens JWT_SECRET REFRESH_TOKEN_SECRET
                   (u_id user) (u_role user) (u_companyId user) now) in *.
  exists user, (fst tokens), (snd tokens). split; [reflexivity|].
  split; [rewrite <- Hresponse; reflexivity|]. split.
  - intros Hfresh.
    exact (auth_accepts_fresh_access JWT_SECRET db' (setVerified user) now t1
             Hrow eq_refl eq_refl Hfresh).
  - intros Hfresh.
    assert (Hgo : refresh (Some (snd tokens)) t2 db'
                  = (mkResponse 200 true None None false []
                       [("accessToken",
                         Jwt.sign (Jwt.mkPayload (u_id user) (Some (u_role user))
                                                 (Some (u_companyId user)) None)
                                  JWT_SECRET (15 * 60) t2)] None,
                     db'))
      by exact (refresh_accepts_last_row db' (setVerified user) (refreshTokens db)
                  now t2 Hrow Hfresh Hrows).
    rewrite Hgo. split; reflexivity.
Qed.

End VerifiedSession.

(** The facts of this part on the accounts of the demonstration store. *)
Section SessionFactsExamples.
Import Http Db Auth Client Fixtures.


Lemma resend_then_verify_witness :
  hasAt "nouveau@emergence-transit.com" = true
  /\ String.length "654321" = 6%nat
  /\ findUserByEmail accounts (toLowerCase "nouveau@emergence-transit.com")
     = Some newcomer
  /\ u_emailVerified newcomer = false
  /\ let issued := snd (Auth.resendCode hasAt "nouveau@emergence-transit.com"
                                        "654321" 1000 accounts) in
     (exists response verified,
         Auth.verifyEmail hasAt "jwt-secret" "refresh-secret"
                          "nouveau@emergence-transit.com" "654321" 901000 issued
         = (response, verified)
         /\ status response = 200)
     /\ Auth.verifyEmail hasAt "jwt-secret" "refresh-secret"
                         "nouveau@emergence-transit.com" "654321" 901001 issued
        = (failure 400 (Text "Code expiré"), issued)
     /\ Auth.verifyEmail hasAt "jwt-secret" "refresh-secret"
                         "nouveau@emergence-transit.com" "123456" 2000 issued
        = (failure 400 (Text "Code incorrect"), issued).
Proof.
  split; [reflexivity|]. split; [reflexivity|]. split; [reflexivity|].
  split; [reflexivity|].
  destruct (resend_then_verify hasAt "jwt-secret" "refresh-secret"
              "nouveau@emergence-transit.com" "654321" 1000 accounts newcomer
              eq_refl eq_refl eq_refl eq_refl) as (Hgood & Hlate & Hother).
  intros issued. split; [|split].
  - destruct (Hgood 901000) as (response & verified & Hrun & Hstatus & _);
      [lia|]. exists response, verified. now split.
  - apply Hlate. lia.
  - apply Hother; [reflexivity | discriminate].
Defined.

Lemma login_succeeds_only_if_witness :
  status (fst adminLogin) = 200
  /\ exists user,
       findUserByEmail accounts (toLowerCase "admin@emergence-transit.com")
       = Some user
       /\ u_emailVerified user = true /\ u_isActive user = true
       /\ lockedAt user 1000000 = None
       /\ plainCompare "Admin123!" (u_password user) = true.
Proof.
  destruct (login_succeeds_only_if plainCompare hasAt "jwt-secret" "refresh-secret"
              "admin@emergence-transit.com" "Admin123!" "000000" 1000000 accounts
              (fst adminLogin) (snd adminLogin) eq_refl) as [Hok _].
  split; [reflexivity | exact (Hok eq_refl)].
Defined.

Lemma auth_attaches_the_stored_identity_witness :
  Auth.auth "jwt-secret" (Some (fst adminTokens)) None 1000001 (snd adminLogin)
  = inr adminIdentity
  /\ exists token claims user,
       (Some (fst adminTokens) = Some token
        \/ (Some (fst adminTokens) = None /\ None = Some token))
       /\ Jwt.verify token "jwt-secret" 1000001 = inr claims
       /\ findUserById (snd adminLogin) (Jwt.userId claims) = Some user
       /\ u_isActive user = true /\ u_emailVerified user = true
       /\ adminIdentity
          = mkIdentity (u_id user) (u_email user) (u_name user)
                       (u_role user) (u_companyId user).
Proof.
  split; [reflexivity|].
  exact (auth_attaches_the_stored_identity "jwt-secret"
           (Some (fst adminTokens)) None 1000001 (snd adminLogin)
           adminIdentity eq_refl).
Defined.

Lemma credentials_are_single_purpose_witness :
  "jwt-secret" <> "refresh-secret"
  /\ Auth.auth "jwt-secret" (Some (snd adminTokens)) None 1000001 (snd adminLogin)
     = inl (failureCode 401 (Text "Token invalide") "INVALID_TOKEN")
  /\ Auth.refresh "jwt-secret" "refresh-secret" (Some (fst adminTokens))
                  1000001 (snd adminLogin)
     = (failure 401 (Text "Token invalide"), snd adminLogin).
Proof.
  assert (Hdiff : "jwt-secret" <> "refresh-secret") by discriminate.
  split; [exact Hdiff|].
  destruct (credentials_are_single_purpose "jwt-secret" "refresh-secret"
              "u-admin" "DIRECTOR" "c1" 1000000 1000001 (snd adminLogin) Hdiff)
    as (Hguard & _ & Hrefresh).
  split; [exact Hguard | exact Hrefresh].
Defined.

Lemma revocation_is_monotonic_witness :
  let revoked := mkRefreshToken (snd adminTokens) "u-admin"
                                (1000000 + 7 * 24 * 60 * 60 * 1000)
                                (Some 3000000) in
  let db := snd (logout adminIdentity 3000000 (snd adminLogin)) in
  In revoked (refreshTokens db)
  /\ rt_revokedAt revoked <> None
  /\ In revoked
        (refreshTokens
           (snd (Auth.login plainCompare hasAt "jwt-secret" "refresh-secret"
                            "admin@emergence-transit.com" "Admin123!" "000000"
                            4000000 db)))
  /\ In revoked (refreshTokens (snd (logout adminIdentity 5000000 db))).
Proof.
  intros revoked db.
  assert (Hin : In revoked (refreshTokens db)) by (left; reflexivity).
  assert (Hrevoked : rt_revokedAt revoked <> None) by discriminate.
  destruct (revocation_is_monotonic plainCompare hasAt "jwt-secret" "refresh-secret"
              db revoked Hin Hrevoked) as (Hlogin & _ & _ & _ & Hlogout).
  split; [exact Hin|]. split; [exact Hrevoked|]. split.
  - apply Hlogin.
  - apply Hlogout.
Defined.

Lemma role_presets_are_nested_witness :
  @requireDirector unit adminIdentity = None
  /\ @requireAccountant unit adminIdentity = None
  /\ @requireAgent unit adminIdentity = None.
Proof.
  destruct (role_presets_are_nested adminIdentity) as (Hdirector & Haccountant & _).
  split; [reflexivity|]. split; [exact (Hdirector eq_refl)|].
  exact (Haccountant (Hdirector eq_refl)).
Defined.


Lemma five_failures_lock_the_account_witness :
  let attempt (password : string) (now : Z) (db : Db.t) :=
    Auth.login plainCompare hasAt "jwt-secret" "refresh-secret"
               "admin@emergence-transit.com" password "000000" now db in
  let db5 :=
    snd (attempt "wrong" 5000
           (snd (attempt "wrong" 4000
                   (snd (attempt "wrong" 3000
                           (snd (attempt "wrong" 2000
                                   (snd (attempt "wrong" 1000 accounts))))))))) in
  findUserByEmail db5 "admin@emergence-transit.com"
  = Some (setFailure 5 (Some 905000) admin)
  /\ status (fst (attempt "Admin123!" 6000 db5)) = 423
  /\ status (fst (attempt "Admin123!" 905000 db5)) = 200.
Proof.
  intros attempt db5.
  destruct (five_failures_lock_the_account plainCompare hasAt
              "jwt-secret" "refresh-secret"
              "admin@emergence-transit.com" "wrong" "Admin123!" "000000"
              accounts admin 1000 2000 3000 4000 5000 6000 905000
              eq_refl eq_refl eq_refl eq_refl eq_refl eq_refl eq_refl eq_refl
              eq_refl eq_refl)
    as (_ & Hfifth & Hlocked & _ & Hopen & _); [lia | lia |].
  split; [exact Hfifth|]. split; [exact Hlocked | exact Hopen].
Defined.

Lemma verification_opens_a_session_witness :
  let run := Auth.verifyEmail hasAt "jwt-secret" "refresh-secret"
               "nouveau@emergence-transit.com" "123456" 800000 accounts in
  NoDup (map u_id (users accounts))
  /\ status (fst run) = 200
  /\ exists accessToken refreshToken,
       cookies (fst run)
       = [("accessToken", accessToken); ("refreshToken", refreshToken)]
       /\ Auth.auth "jwt-secret" (Some accessToken) None 900000 (snd run)
          = inr (mkIdentity "u-new" "nouveau@emergence-transit.com" "Nouveau"
                            "AGENT" "c1")
       /\ status (fst (Auth.refresh "jwt-secret" "refresh-secret"
                                    (Some refreshToken) 86400000 (snd run)))
          = 200.
Proof.
  intros run.
  split; [exact accounts_ids_unique|]. split; [reflexivity|].
  destruct (verification_opens_a_session hasAt "jwt-secret" "refresh-secret"
              "nouveau@emergence-transit.com" "123456" 800000 accounts
              (fst run) (snd run) 900000 86400000
              accounts_ids_unique eq_refl eq_refl)
    as (user & accessToken & refreshToken & Hfind & Hcookies & Hguard & Hrefresh).
  vm_compute in Hfind. injection Hfind as <-.
  exists accessToken, refreshToken. split; [exact Hcookies|]. split.
  - apply Hguard. vm_compute. reflexivity.
  - apply Hrefresh. vm_compute. reflexivity.
Defined.

End SessionFactsExamples.
